(** * swc_event_lookup: a shallow embedding of [swc_event_lookup.py]

    The program reads an event record, derives query parameters from it,
    queries a REST service and prints the sessions and alerts it gets back.
    The embedding follows the source function by function:

    - Python values, insertion-ordered dictionaries and exceptions;
    - the [time] functions the program calls ([strptime], [mktime],
      [localtime], [strftime]) over the proleptic Gregorian calendar, with
      the local time zone of the process as a parameter;
    - [timestamp_range] and [create_params];
    - [load_swc_key], [query_service], the presenters and [main] in a monad
      that threads the two output streams and ends in a return, a
      [sys.exit] or an uncaught exception; the files, the service, the JSON
      decoder and the built-ins the presenters call make up the [world] the
      program runs in.

    The properties come after the definitions: the calendar and the
    read-back of printed times, the loop of [create_params], the failure
    paths, the sort of the driver and the two time windows. *)

From Stdlib Require Import ZArith String Ascii List Bool Lia.
From Stdlib Require Import DecimalString DecimalZ DecimalPos.
From Stdlib Require Import Permutation Sorted.
Import ListNotations.

Local Open Scope string_scope.
Local Open Scope Z_scope.

Set Warnings "-register-all".

(** ** Python values *)

(** The values [json.load] and [response.json()] produce.  Numbers with a
    fraction or an exponent (Python floats) are not part of the model. *)
Inductive pyval : Type :=
| PNone
| PBool (b : bool)
| PInt (z : Z)
| PStr (s : string)
| PList (l : list pyval)
| PDict (d : list (string * pyval)).

(** The exceptions the program can meet.  [JSONDecodeError] is a subclass of
    [ValueError]; [IOError] is Python 3's name for [OSError]. *)
Inductive exn : Type :=
| KeyError
| ValueError
| TypeError
| IOError
| AttributeError
| OverflowError
| JSONDecodeError
| ConnectionError.

Definition is_KeyError (e : exn) : bool :=
  match e with KeyError => true | _ => false end.

Definition is_IOError (e : exn) : bool :=
  match e with IOError => true | _ => false end.

Definition is_ConnectionError (e : exn) : bool :=
  match e with ConnectionError => true | _ => false end.

Inductive result (A : Type) : Type :=
| Ok (a : A)
| Raise (e : exn).
Arguments Ok {A} a.
Arguments Raise {A} e.

Definition rbind {A B} (r : result A) (k : A -> result B) : result B :=
  match r with
  | Ok a => k a
  | Raise e => Raise e
  end.

Notation "x <- r ;; k" := (rbind r (fun x => k))
  (at level 61, r at next level, right associativity).

(** ** Dictionaries

    A Python [dict] keeps its keys in insertion order and holds each key
    once; assigning to a key that is there replaces the value in place. *)

Definition dict (V : Type) : Type := list (string * V).

Fixpoint dict_get {V} (d : dict V) (k : string) : option V :=
  match d with
  | [] => None
  | (k', v) :: d' => if String.eqb k' k then Some v else dict_get d' k
  end.

Fixpoint dict_set {V} (d : dict V) (k : string) (v : V) : dict V :=
  match d with
  | [] => [(k, v)]
  | (k', v') :: d' =>
      if String.eqb k' k then (k', v) :: d' else (k', v') :: dict_set d' k v
  end.

Definition dict_keys {V} (d : dict V) : list string := map fst d.

(** [d[k]] on a dictionary. *)
Definition dict_getitem {V} (d : dict V) (k : string) : result V :=
  match dict_get d k with
  | Some v => Ok v
  | None => Raise KeyError
  end.

(** [obj[k]] with a string subscript: only a dictionary accepts it. *)
Definition py_getitem (obj : pyval) (k : string) : result pyval :=
  match obj with
  | PDict d => dict_getitem d k
  | _ => Raise TypeError
  end.

(** ** Characters and decimal numerals *)

Definition digit (c : ascii) : option Z :=
  let n := Z.of_N (N_of_ascii c) in
  if (48 <=? n) && (n <=? 57) then Some (n - 48) else None.

(** The ASCII characters [str.isspace] and the pattern [\s] accept. *)
Definition is_space (c : ascii) : bool :=
  let n := Z.of_N (N_of_ascii c) in
  ((9 <=? n) && (n <=? 13)) || ((28 <=? n) && (n <=? 32)).

(** [str(z)] for an integer. *)
Definition str_of_Z (z : Z) : string := NilZero.string_of_int (Z.to_int z).

Definition digit_char (d : Z) : ascii := ascii_of_N (Z.to_N (48 + d)).

(** A field printed on two digits, as [%m], [%d], [%H], [%M] and [%S] are. *)
Definition pad2 (v : Z) : string :=
  String (digit_char (v / 10)) (String (digit_char (v mod 10)) EmptyString).

(** ** Calendar arithmetic

    Days are counted from 1970-01-01 in the proleptic Gregorian calendar; a
    400-year era has 146097 days and starts on a 1st of March; it is made
    of four centuries of 36524 days, the last one a day longer, and a century
    of 4-year cycles of 1461 days, the last one a day shorter. *)

Definition is_leap (y : Z) : bool :=
  ((y mod 4 =? 0) && negb (y mod 100 =? 0)) || (y mod 400 =? 0).

Definition days_in_month (y m : Z) : Z :=
  if m =? 2 then (if is_leap y then 29 else 28)
  else if (m =? 4) || (m =? 6) || (m =? 9) || (m =? 11) then 30
  else 31.

(** Within an era: the day of the era of a date given by its year of the
    era (years start in March), month and day, and back. *)
Definition doe_of_civil (yoe m d : Z) : Z :=
  let mp := if 2 <? m then m - 3 else m + 9 in
  let doy := (153 * mp + 2) / 5 + d - 1 in
  yoe * 365 + yoe / 4 - yoe / 100 + doy.

Definition civil_of_doe (doe : Z) : Z * Z * Z :=
  let n100 := Z.min (doe / 36524) 3 in
  let r := doe - n100 * 36524 in
  let n4 := r / 1461 in
  let r := r - n4 * 1461 in
  let n1 := Z.min (r / 365) 3 in
  let doy := r - n1 * 365 in
  let yoe := n100 * 100 + n4 * 4 + n1 in
  let mp := (5 * doy + 2) / 153 in
  let d := doy - (153 * mp + 2) / 5 + 1 in
  let m := if mp <? 10 then mp + 3 else mp - 9 in
  (yoe, m, d).

Definition days_from_civil (y m d : Z) : Z :=
  let y' := if m <=? 2 then y - 1 else y in
  let era := y' / 400 in
  let yoe := y' - era * 400 in
  era * 146097 + doe_of_civil yoe m d - 719468.

Definition civil_from_days (z : Z) : Z * Z * Z :=
  let z' := z + 719468 in
  let era := z' / 146097 in
  let doe := z' - era * 146097 in
  let '(yoe, m, d) := civil_of_doe doe in
  let y := yoe + era * 400 in
  ((if m <=? 2 then y + 1 else y), m, d).

(** ** The [time] module *)

(** The fields of [time.struct_time] the program reads or prints. *)
Record struct_time : Type := mk_tm {
  tm_year : Z;
  tm_mon : Z;
  tm_mday : Z;
  tm_hour : Z;
  tm_min : Z;
  tm_sec : Z
}.

(** Seconds since the epoch of a broken-down time read as UTC. *)
Definition timegm (tm : struct_time) : Z :=
  days_from_civil (tm_year tm) (tm_mon tm) (tm_mday tm) * 86400
  + tm_hour tm * 3600 + tm_min tm * 60 + tm_sec tm.

Definition gmtime (x : Z) : struct_time :=
  let r := x mod 86400 in
  let '(y, m, d) := civil_from_days (x / 86400) in
  mk_tm y m d (r / 3600) (r mod 3600 / 60) (r mod 60).

(** The local zone of the process: the offset from UTC, in seconds east, in
    force at each instant, and the offsets the zone has used, in the order
    [mktime] tries them: the one it prefers for a wall-clock time the zone
    shows twice comes first, and the one it falls back on for a wall-clock
    time the zone never shows comes last. *)
Record timezone : Type := mk_tz {
  utcoffset : Z -> Z;
  tz_offsets : list Z
}.

Definition fixed_zone (off : Z) : timezone := mk_tz (fun _ => off) [off].

Definition utc : timezone := fixed_zone 0.

(** US Eastern time in 2021: UTC-5, and UTC-4 from 2021-03-14 07:00:00 UTC
    to 2021-11-07 06:00:00 UTC. *)
Definition us_eastern : timezone :=
  mk_tz (fun t => if (1615705200 <=? t) && (t <? 1636264800)
                  then -14400 else -18000)
        [-14400; -18000].

(** The wall-clock time the zone shows at an instant. *)
Definition local_tm (tz : timezone) (x : Z) : struct_time :=
  gmtime (x + utcoffset tz x).

(** [time.localtime(x)].  The instant must fit the 64 bits of the platform's
    [time_t], or the conversion raises [OverflowError]; the year less 1900
    must fit the C [int] of [tm_year], or [localtime_r] fails and CPython
    raises [OSError]. *)
Definition fits_time_t (x : Z) : bool := (- 2 ^ 63 <=? x) && (x <? 2 ^ 63).

Definition fits_tm_year (y : Z) : bool :=
  (- 2 ^ 31 <=? y - 1900) && (y - 1900 <? 2 ^ 31).

Definition localtime (tz : timezone) (x : Z) : result struct_time :=
  if fits_time_t x then
    let tm := local_tm tz x in
    if fits_tm_year (tm_year tm) then Ok tm else Raise IOError
  else Raise OverflowError.

(** [time.mktime] of a broken-down local time whose DST flag is unknown, as
    [strptime] leaves it: the instant at which the zone shows that wall-clock
    time.  A wall-clock time repeated by a transition is read with the first
    listed offset that shows it (for US Eastern the daylight reading, the
    earlier of the two instants); a wall-clock time skipped by a transition
    is shown at no instant, and is read with the last listed offset (for US
    Eastern the standard one, which moves 02:30 to 03:30 daylight time). *)
Definition mktime (tz : timezone) (tm : struct_time) : Z :=
  let w := timegm tm in
  match find (fun o => utcoffset tz (w - o) =? o) (tz_offsets tz) with
  | Some o => w - o
  | None => w - last (tz_offsets tz) 0
  end.

(** *** [time.strptime(s, "%Y-%m-%d %H:%M:%S")]

    The directives are matched the way [_strptime] does: four digits for the
    year, one or two digits for the other fields with the two-digit spelling
    tried first, any run of white space where the format has a blank, and
    nothing left over.  The date must then exist in the calendar. *)

Definition rd_year (s : string) : option (Z * string) :=
  match s with
  | String a (String b (String c (String d r))) =>
      match digit a, digit b, digit c, digit d with
      | Some a, Some b, Some c, Some d =>
          Some (1000 * a + 100 * b + 10 * c + d, r)
      | _, _, _, _ => None
      end
  | _ => None
  end.

(** A field of one or two digits: [two a b] says which two-digit spellings
    the directive accepts and [one a] which one-digit spellings. *)
Definition rd_field (two : Z -> Z -> bool) (one : Z -> bool) (s : string)
  : option (Z * string) :=
  match s with
  | String a r =>
      match digit a with
      | Some a =>
          let short := if one a then Some (a, r) else None in
          match r with
          | String b r' =>
              match digit b with
              | Some b => if two a b then Some (10 * a + b, r') else short
              | None => short
              end
          | EmptyString => short
          end
      | None => None
      end
  | EmptyString => None
  end.

Definition rd_month : string -> option (Z * string) :=
  rd_field (fun a b => ((a =? 1) && (b <=? 2)) || ((a =? 0) && (1 <=? b)))
           (fun a => 1 <=? a).

(** [%d] also accepts a blank followed by one digit. *)
Definition rd_day (s : string) : option (Z * string) :=
  match rd_field (fun a b => ((a =? 3) && (b <=? 1))
                             || ((1 <=? a) && (a <=? 2))
                             || ((a =? 0) && (1 <=? b)))
                 (fun a => 1 <=? a) s with
  | Some r => Some r
  | None =>
      match s with
      | String " " (String a r) =>
          match digit a with
          | Some a => if 1 <=? a then Some (a, r) else None
          | None => None
          end
      | _ => None
      end
  end.

Definition rd_hour : string -> option (Z * string) :=
  rd_field (fun a b => ((a =? 2) && (b <=? 3)) || (a <=? 1)) (fun _ => true).

Definition rd_minute : string -> option (Z * string) :=
  rd_field (fun a _ => a <=? 5) (fun _ => true).

Definition rd_second : string -> option (Z * string) :=
  rd_field (fun a b => ((a =? 6) && (b <=? 1)) || (a <=? 5)) (fun _ => true).

Definition rd_char (c : ascii) (s : string) : option string :=
  match s with
  | String a r => if Ascii.eqb a c then Some r else None
  | EmptyString => None
  end.

Fixpoint skip_spaces (s : string) : string :=
  match s with
  | String a r => if is_space a then skip_spaces r else s
  | EmptyString => s
  end.

(** One or more white-space characters. *)
Definition rd_spaces (s : string) : option string :=
  match s with
  | String a r => if is_space a then Some (skip_spaces r) else None
  | EmptyString => None
  end.

Definition obind {A B} (o : option A) (k : A -> option B) : option B :=
  match o with
  | Some a => k a
  | None => None
  end.

Definition match_timestamp (s : string) : option struct_time :=
  obind (rd_year s) (fun '(y, s) =>
  obind (rd_char "-" s) (fun s =>
  obind (rd_month s) (fun '(m, s) =>
  obind (rd_char "-" s) (fun s =>
  obind (rd_day s) (fun '(d, s) =>
  obind (rd_spaces s) (fun s =>
  obind (rd_hour s) (fun '(hh, s) =>
  obind (rd_char ":" s) (fun s =>
  obind (rd_minute s) (fun '(mi, s) =>
  obind (rd_char ":" s) (fun s =>
  obind (rd_second s) (fun '(ss, s) =>
  match s with
  | EmptyString => Some (mk_tm y m d hh mi ss)
  | _ => None
  end))))))))))).

Definition strptime (s : string) : result struct_time :=
  match match_timestamp s with
  | Some tm =>
      if (1 <=? tm_year tm)
         && (tm_mday tm <=? days_in_month (tm_year tm) (tm_mon tm))
      then Ok tm
      else Raise ValueError
  | None => Raise ValueError
  end.

(** [time.strftime("%Y-%m-%dT%H:%M:%SZ", tm)].  The text: the year in plain
    decimal, the other fields on two digits, and the letters [T] and [Z] as
    they stand in the format. *)
Definition strftime_text (tm : struct_time) : string :=
  str_of_Z (tm_year tm) ++ "-" ++ pad2 (tm_mon tm) ++ "-" ++ pad2 (tm_mday tm)
  ++ "T" ++ pad2 (tm_hour tm) ++ ":" ++ pad2 (tm_min tm) ++ ":"
  ++ pad2 (tm_sec tm) ++ "Z".

(** The call first converts the fields of the [struct_time] to C [int]s, and
    raises [OverflowError] for a year that does not fit: [localtime] returns
    years up to [2 ^ 31 + 1899], [strftime] takes them up to [2 ^ 31 - 1]. *)
Definition fits_c_int (y : Z) : bool := (- 2 ^ 31 <=? y) && (y <? 2 ^ 31).

Definition strftime (tm : struct_time) : result string :=
  if fits_c_int (tm_year tm) then Ok (strftime_text tm)
  else Raise OverflowError.

(** ** [timestamp_range] and [create_params] *)

Definition timestamp_range (tz : timezone) (timestamp : pyval) (n : Z)
  : result (string * string) :=
  match timestamp with
  | PStr s =>
      tm <- strptime s ;;
      let timestamp := mktime tz tm in
      gte <- localtime tz (timestamp - n) ;;
      timestamp_gte <- strftime gte ;;
      lte <- localtime tz (timestamp + n) ;;
      timestamp_lte <- strftime lte ;;
      Ok (timestamp_gte, timestamp_lte)
  | _ => Raise TypeError
  end.

(** The right-hand side of the assignment in the loop body, for the scheme
    value [source]. *)
Definition param_value (tz : timezone) (event : pyval) (source : string)
  (time_range : Z) : result pyval :=
  if String.eqb source "timestamp_gte" then
    ts <- py_getitem event "timestamp" ;;
    r <- timestamp_range tz ts time_range ;;
    Ok (PStr (fst r))
  else if String.eqb source "timestamp_lte" then
    ts <- py_getitem event "timestamp" ;;
    r <- timestamp_range tz ts time_range ;;
    Ok (PStr (snd r))
  else py_getitem event source.

(** The body of the [try] for one key of the scheme. *)
Definition param_entry (tz : timezone) (event : pyval)
  (translation : dict string) (time_range : Z) (param_key : string)
  : result pyval :=
  source <- dict_getitem translation param_key ;;
  param_value tz event source time_range.

(** The [for] loop: a [KeyError] skips the entry, any other exception leaves
    the function. *)
Fixpoint create_params_loop (tz : timezone) (event : pyval)
  (translation : dict string) (time_range : Z) (keys : list string)
  (params : dict pyval) : result (dict pyval) :=
  match keys with
  | [] => Ok params
  | param_key :: keys' =>
      match param_entry tz event translation time_range param_key with
      | Ok v =>
          create_params_loop tz event translation time_range keys'
            (dict_set params param_key v)
      | Raise e =>
          if is_KeyError e
          then create_params_loop tz event translation time_range keys' params
          else Raise e
      end
  end.

Definition create_params (tz : timezone) (event : pyval)
  (translation : dict string) (time_range : Z) : result (dict pyval) :=
  create_params_loop tz event translation time_range (dict_keys translation) [].

(** ** Strings *)

Definition nl : string := String (ascii_of_nat 10) EmptyString.

(** [needle in hay]. *)
Fixpoint str_in (needle hay : string) : bool :=
  String.prefix needle hay
  || match hay with
     | String _ r => str_in needle r
     | EmptyString => false
     end.

Fixpoint rstrip (s : string) : string :=
  match s with
  | String c r =>
      match rstrip r with
      | EmptyString => if is_space c then EmptyString else String c EmptyString
      | r' => String c r'
      end
  | EmptyString => EmptyString
  end.

(** [s.strip()]. *)
Definition strip (s : string) : string := rstrip (skip_spaces s).

(** The first line of a text, with its newline: what [readline] returns on a
    file just opened. *)
Fixpoint readline (s : string) : string :=
  match s with
  | String c r =>
      if Ascii.eqb c (ascii_of_nat 10) then String c EmptyString
      else String c (readline r)
  | EmptyString => EmptyString
  end.

Definition lower (c : ascii) : ascii :=
  let n := N_of_ascii c in
  if ((65 <=? n) && (n <=? 90))%N then ascii_of_N (n + 32) else c.

Fixpoint str_lower (s : string) : string :=
  match s with
  | String c r => String (lower c) (str_lower r)
  | EmptyString => EmptyString
  end.

(** [s[:-1]] and [s.replace('T', ' ')]. *)
Fixpoint drop_last (s : string) : string :=
  match s with
  | String c EmptyString => EmptyString
  | String c r => String c (drop_last r)
  | EmptyString => EmptyString
  end.

Fixpoint replace_T (s : string) : string :=
  match s with
  | String c r => String (if Ascii.eqb c "T" then " "%char else c) (replace_T r)
  | EmptyString => EmptyString
  end.

(** The digits of an integer literal as [int] reads them from a string: an
    underscore may stand between two digits. *)
Fixpoint rd_digits (s : string) (acc : Z) (after_digit : bool) : option Z :=
  match s with
  | String c r =>
      match digit c with
      | Some d => rd_digits r (10 * acc + d) true
      | None =>
          if Ascii.eqb c "_" && after_digit then rd_digits r acc false
          else None
      end
  | EmptyString => if after_digit then Some acc else None
  end.

(** The white space [int] skips at the two ends of an ASCII string is that
    of C's [isspace]: the separators 28 to 31, which [str.strip] removes, are
    not part of it. *)
Definition is_c_space (c : ascii) : bool :=
  let n := Z.of_N (N_of_ascii c) in
  ((9 <=? n) && (n <=? 13)) || (n =? 32).

Fixpoint skip_c_spaces (s : string) : string :=
  match s with
  | String a r => if is_c_space a then skip_c_spaces r else s
  | EmptyString => s
  end.

Fixpoint rstrip_c (s : string) : string :=
  match s with
  | String c r =>
      match rstrip_c r with
      | EmptyString =>
          if is_c_space c then EmptyString else String c EmptyString
      | r' => String c r'
      end
  | EmptyString => EmptyString
  end.

Fixpoint count_digits (s : string) : Z :=
  match s with
  | String c r =>
      match digit c with
      | Some _ => 1 + count_digits r
      | None => count_digits r
      end
  | EmptyString => 0
  end.

(** The limit on the digits of a decimal numeral that [int] converts,
    [sys.get_int_max_str_digits()], as the interpreter starts with it. *)
Definition int_max_str_digits : Z := 4300.

(** The digits after the sign: a numeral with more digits than the limit is
    refused. *)
Definition int_digits (t : string) : option Z :=
  if count_digits t <=? int_max_str_digits then rd_digits t 0 false
  else None.

(** [int(v)]. *)
Definition py_int (v : pyval) : result Z :=
  match v with
  | PInt z => Ok z
  | PBool b => Ok (if b then 1 else 0)
  | PStr s =>
      let r :=
        match rstrip_c (skip_c_spaces s) with
        | String "-" t => option_map Z.opp (int_digits t)
        | String "+" t => int_digits t
        | t => int_digits t
        end in
      match r with
      | Some z => Ok z
      | None => Raise ValueError
      end
  | _ => Raise TypeError
  end.

(** ** Sorting and slicing *)

Fixpoint mapM {A B} (f : A -> result B) (l : list A) : result (list B) :=
  match l with
  | [] => Ok []
  | x :: l' => y <- f x ;; ys <- mapM f l' ;; Ok (y :: ys)
  end.

(** [list.sort(key=..., reverse=True)] on elements paired with their keys:
    the keys come out in descending order and elements with equal keys stay
    in the order they had. *)
Fixpoint insert_desc {A} (k : Z) (x : A) (l : list (Z * A)) : list (Z * A) :=
  match l with
  | [] => [(k, x)]
  | (k', x') :: l' =>
      if k <? k' then (k', x') :: insert_desc k x l' else (k, x) :: l
  end.

Fixpoint sort_desc {A} (l : list (Z * A)) : list (Z * A) :=
  match l with
  | [] => []
  | (k, x) :: l' => insert_desc k x (sort_desc l')
  end.

(** The sort key of the driver:
    [lambda x: int(x["octets_in"]) + int(x["octets_out"])]. *)
Definition session_total (x : pyval) : result Z :=
  a <- py_getitem x "octets_in" ;;
  a <- py_int a ;;
  b <- py_getitem x "octets_out" ;;
  b <- py_int b ;;
  Ok (a + b).

(** [sessions.sort(key=..., reverse=True)]: the keys of all elements are
    computed first, then the list is reordered. *)
Definition sort_sessions (sessions : pyval) : result pyval :=
  match sessions with
  | PList l =>
      keys <- mapM session_total l ;;
      Ok (PList (map snd (sort_desc (combine keys l))))
  | _ => Raise AttributeError
  end.

(** [sessions[:5]]. *)
Definition top5 (sessions : pyval) : result pyval :=
  match sessions with
  | PList l => Ok (PList (firstn 5 l))
  | PStr s => Ok (PStr (substring 0 5 s))
  | _ => Raise TypeError
  end.

(** ** The program's world and its effects *)

Record response : Type := mk_response {
  status_code : Z;
  headers : dict string;
  body : string
}.

(** Header names are compared without regard to case. *)
Fixpoint headers_get (h : dict string) (name : string) : option string :=
  match h with
  | [] => None
  | (k, v) :: h' =>
      if String.eqb (str_lower k) (str_lower name) then Some v
      else headers_get h' name
  end.

(** What the program finds around it: the local zone, the two files (their
    text, or the exception opening or reading them raises), the JSON decoder,
    the service behind [requests.get], and the built-ins the presenters
    call. *)
Record world : Type := mk_world {
  zone : timezone;
  key_file : result string;
  event_file : result string;
  json_loads : string -> result pyval;
  http_get : string -> dict string -> dict pyval -> result response;
  py_str : pyval -> string;
  json_dumps : pyval -> string
}.

Record streams : Type := mk_streams {
  stdout : list string;
  stderr : list string
}.

Inductive outcome (A : Type) : Type :=
| Return (a : A)
| Exit (code : Z)
| Uncaught (e : exn).
Arguments Return {A} a.
Arguments Exit {A} code.
Arguments Uncaught {A} e.

(** A computation writes to the two streams and then returns, leaves through
    [sys.exit] or dies of an exception nobody caught. *)
Definition prog (A : Type) : Type := streams -> streams * outcome A.

Definition ret {A} (a : A) : prog A := fun s => (s, Return a).

Definition bind {A B} (p : prog A) (k : A -> prog B) : prog B :=
  fun s =>
    match p s with
    | (s', Return a) => k a s'
    | (s', Exit c) => (s', Exit c)
    | (s', Uncaught e) => (s', Uncaught e)
    end.

Notation "x <~ p ;; k" := (bind p (fun x => k))
  (at level 61, p at next level, right associativity).
Notation "p ;;; k" := (bind p (fun _ => k))
  (at level 61, right associativity).

Definition sys_exit {A} (code : Z) : prog A := fun s => (s, Exit code).

Definition throw {A} (e : exn) : prog A := fun s => (s, Uncaught e).

Definition lift {A} (r : result A) : prog A :=
  match r with
  | Ok a => ret a
  | Raise e => throw e
  end.

(** [print(text)] and [print(text, file=sys.stderr)]; [print] ends the text
    with a newline. *)
Definition print (text : string) : prog unit :=
  fun s => (mk_streams (stdout s ++ [(text ++ nl)%string])%list (stderr s),
            Return tt).

Definition print_err (text : string) : prog unit :=
  fun s => (mk_streams (stdout s) (stderr s ++ [(text ++ nl)%string])%list,
            Return tt).

(** [try: body  except (E): handler] for the exceptions [catches] selects. *)
Definition try_except {A} (body : prog A) (catches : exn -> bool)
  (handler : prog A) : prog A :=
  fun s =>
    match body s with
    | (s', Uncaught e) => if catches e then handler s' else (s', Uncaught e)
    | r => r
    end.

(** The status the interpreter ends with. *)
Definition exit_status {A} (o : outcome A) : Z :=
  match o with
  | Return _ => 0
  | Exit c => c
  | Uncaught _ => 1
  end.

Definition empty_streams : streams := mk_streams [] [].

(** ** The program *)

Definition SWC_API_KEY : string := "swc_api_key.txt".
Definition SWC_SESSION_URL : string :=
  "https://cisco-maclemon.obsrvbl.com/api/v3/snapshots/session-data/".
Definition SWC_ALERT_URL : string :=
  "https://cisco-maclemon.obsrvbl.com/api/v3/alerts/alert/".
Definition SWC_EVENT_FILE_NAME : string := "event.json".

Definition load_swc_key (w : world) : prog string :=
  try_except
    (text <~ lift (key_file w) ;; ret (strip (readline text)))
    is_IOError
    (print_err (nl ++ "Error: Unable to read key from '" ++ SWC_API_KEY
                ++ "'..." ++ nl) ;;;
     sys_exit 1).

(** The headers [query_service] sends. *)
Definition request_headers (key : string) : dict string :=
  [("Content-Type", "application/json");
   ("Accept", "application/json");
   ("Authorization", "ApiKey " ++ key)].

Definition query_service (w : world) (url : string) (parameters : dict pyval)
  : prog pyval :=
  key <~ load_swc_key w ;;
  response <~ try_except
    (lift (http_get w url (request_headers key) parameters))
    is_ConnectionError
    (print_err ("Error: Unable to connect to the service using '" ++ url
                ++ " url..." ++ nl) ;;;
     sys_exit 3) ;;
  if negb (status_code response =? 200) then
    print_err ("Error: Received not OK status code '"
               ++ str_of_Z (status_code response)
               ++ "' from the service..." ++ nl) ;;;
    sys_exit 4
  else
    match headers_get (headers response) "Content-Type" with
    | None => throw TypeError
    | Some content_type =>
        if negb (str_in "application/json" content_type) then
          print_err ("Error: Received not json formatted content '"
                     ++ content_type ++ "' from the service..." ++ nl) ;;;
          sys_exit 5
        else
          lift (obj <- json_loads w (body response) ;;
                py_getitem obj "objects")
    end.

(** [for x in v] over a decoded value. *)
Definition py_iter (v : pyval) : result (list pyval) :=
  match v with
  | PList l => Ok l
  | PDict d => Ok (map (fun kv => PStr (fst kv)) d)
  | PStr s =>
      Ok (map (fun c => PStr (String c EmptyString)) (list_ascii_of_string s))
  | _ => Raise TypeError
  end.

Fixpoint for_each {A} (l : list A) (body : A -> prog unit) : prog unit :=
  match l with
  | [] => ret tt
  | x :: l' => body x ;;; for_each l' body
  end.

(** [v[:-1].replace('T', ' ')]. *)
Definition start_time (v : pyval) : result string :=
  match v with
  | PStr s => Ok (replace_T (drop_last s))
  | PList _ => Raise AttributeError
  | _ => Raise TypeError
  end.

Definition session_text (w : world) (session : pyval) : result string :=
  t <- py_getitem session "start_timestamp_utc" ;;
  t <- start_time t ;;
  ip <- py_getitem session "ip" ;;
  port <- py_getitem session "port" ;;
  connected_ip <- py_getitem session "connected_ip" ;;
  connected_port <- py_getitem session "connected_port" ;;
  protocol <- py_getitem session "protocol" ;;
  octets_in <- py_getitem session "octets_in" ;;
  octets_out <- py_getitem session "octets_out" ;;
  packets_in <- py_getitem session "packets_in" ;;
  packets_out <- py_getitem session "packets_out" ;;
  Ok ("Time: " ++ t
      ++ ", Src: " ++ py_str w ip ++ ":" ++ py_str w port
      ++ ", Dst: " ++ py_str w connected_ip ++ ":" ++ py_str w connected_port
      ++ ", Proto: " ++ py_str w protocol
      ++ ", Data In: " ++ py_str w octets_in
      ++ ", Data Out: " ++ py_str w octets_out
      ++ ", Packets In: " ++ py_str w packets_in
      ++ ", Packets Out: " ++ py_str w packets_out).

Definition print_sessions (w : world) (sessions : pyval) : prog unit :=
  l <~ lift (py_iter sessions) ;;
  for_each l (fun session =>
    line <~ lift (session_text w session) ;;
    print line).

Definition print_alerts (w : world) (alerts : pyval) : prog unit :=
  l <~ lift (py_iter alerts) ;;
  for_each l (fun alert => print (json_dumps w alert)).

(** The event loader at the head of [main]. *)
Definition load_event (w : world) : prog pyval :=
  try_except
    (lift (text <- event_file w ;; json_loads w text))
    is_IOError
    (print_err (nl ++ "Error: Unable to read from '" ++ SWC_EVENT_FILE_NAME
                ++ "'..." ++ nl) ;;;
     sys_exit 2).

(** The four translation schemes of [main]. *)
Definition matching_translation : dict string :=
  [("ip", "src_ip");
   ("port", "src_port");
   ("connected_ip", "dst_ip");
   ("connected_port", "dst_port");
   ("protocol", "proto");
   ("start_timestamp_utc__gte", "timestamp_gte");
   ("start_timestamp_utc__lte", "timestamp_lte")].

Definition nearby_translation : dict string :=
  [("ip", "src_ip");
   ("connected_ip", "dst_ip");
   ("start_timestamp_utc__gte", "timestamp_gte");
   ("start_timestamp_utc__lte", "timestamp_lte")].

Definition talkers_translation : dict string :=
  [("ip", "src_ip");
   ("start_timestamp_utc__gte", "timestamp_gte");
   ("start_timestamp_utc__lte", "timestamp_lte")].

Definition alert_translation : dict string :=
  [("time__gte", "timestamp_gte");
   ("time__lte", "timestamp_lte")].

(** The sort and the slice of the third scenario. *)
Definition top_talkers (sessions : pyval) : result pyval :=
  sessions <- sort_sessions sessions ;;
  top5 sessions.

(** The parameters of the fourth scenario. *)
Definition alert_params (tz : timezone) (event : pyval) : result (dict pyval) :=
  params <- create_params tz event alert_translation (3600 * 24 * 7) ;;
  Ok (dict_set params "status" (PStr "all")).

Definition main (w : world) : prog unit :=
  event <~ load_event w ;;
  print (nl ++ "Event matching session(s):") ;;;
  params <~ lift (create_params (zone w) event matching_translation 5) ;;
  sessions <~ query_service w SWC_SESSION_URL params ;;
  print_sessions w sessions ;;;
  print (nl ++ "Other session(s) matching the source and destination IP addresses (event time +/- 30secs):") ;;;
  params <~ lift (create_params (zone w) event nearby_translation 30) ;;
  sessions <~ query_service w SWC_SESSION_URL params ;;
  sessions <~ lift (sort_sessions sessions) ;;
  print_sessions w sessions ;;;
  print (nl ++ "Top talkers matching the source IP address (event time +/- 30secs; displaying top 5):") ;;;
  params <~ lift (create_params (zone w) event talkers_translation 30) ;;
  sessions <~ query_service w SWC_SESSION_URL params ;;
  sessions <~ lift (top_talkers sessions) ;;
  print_sessions w sessions ;;;
  print (nl ++ "Alert(s) (event time +/- 30 mins):") ;;;
  params <~ lift (alert_params (zone w) event) ;;
  alerts <~ query_service w SWC_ALERT_URL params ;;
  print_alerts w alerts.

(** ** A JSON decoder

    [world] takes any decoder.  This one reads the JSON texts made of
    objects, arrays, strings with the one-letter escapes, integers and the
    three literals, and rejects any other text; it serves the closed
    examples below. *)

Definition is_json_ws (c : ascii) : bool :=
  let n := Z.of_N (N_of_ascii c) in
  (n =? 32) || (n =? 9) || (n =? 10) || (n =? 13).

Fixpoint skip_json_ws (s : string) : string :=
  match s with
  | String c r => if is_json_ws c then skip_json_ws r else s
  | EmptyString => s
  end.

Definition dquote : ascii := ascii_of_nat 34.
Definition backslash : ascii := ascii_of_nat 92.

(** The characters of a string up to its closing quote. *)
Fixpoint rd_json_string (s : string) : option (string * string) :=
  match s with
  | String c r =>
      if Ascii.eqb c dquote then Some (EmptyString, r)
      else if Ascii.eqb c backslash then
        match r with
        | String e r' =>
            let unescaped :=
              if Ascii.eqb e dquote then Some e
              else if Ascii.eqb e backslash then Some e
              else if Ascii.eqb e "/" then Some e
              else if Ascii.eqb e "b" then Some (ascii_of_nat 8)
              else if Ascii.eqb e "f" then Some (ascii_of_nat 12)
              else if Ascii.eqb e "n" then Some (ascii_of_nat 10)
              else if Ascii.eqb e "r" then Some (ascii_of_nat 13)
              else if Ascii.eqb e "t" then Some (ascii_of_nat 9)
              else None in
            obind unescaped (fun e =>
            obind (rd_json_string r') (fun '(t, rest) =>
            Some (String e t, rest)))
        | EmptyString => None
        end
      else if (N_of_ascii c <? 32)%N then None
      else obind (rd_json_string r) (fun '(t, rest) => Some (String c t, rest))
  | EmptyString => None
  end.

Fixpoint rd_json_digits (s : string) (acc : Z) : Z * string :=
  match s with
  | String c r =>
      match digit c with
      | Some d => rd_json_digits r (10 * acc + d)
      | None => (acc, s)
      end
  | EmptyString => (acc, s)
  end.

(** An integer: [0] or a digit from 1 to 9 followed by digits, and no
    fraction or exponent after it. *)
Definition rd_json_int (s : string) : option (Z * string) :=
  match s with
  | String c r =>
      match digit c with
      | Some d =>
          let '(z, rest) := if d =? 0 then (0, r) else rd_json_digits r d in
          match rest with
          | String c' _ =>
              if Ascii.eqb c' "." || Ascii.eqb c' "e" || Ascii.eqb c' "E"
                 || (d =? 0) && match digit c' with Some _ => true | None => false end
              then None else Some (z, rest)
          | EmptyString => Some (z, rest)
          end
      | None => None
      end
  | EmptyString => None
  end.

Definition drop_prefix (p s : string) : option string :=
  if String.prefix p s
  then Some (substring (String.length p) (String.length s - String.length p) s)
  else None.

Fixpoint rd_json_value (fuel : nat) (s : string) : option (pyval * string) :=
  match fuel with
  | O => None
  | S fuel =>
      match s with
      | String c r =>
          if Ascii.eqb c "{" then
            match skip_json_ws r with
            | String "}" rest => Some (PDict [], rest)
            | r => obind (rd_json_members fuel r [])
                     (fun '(d, rest) => Some (PDict d, rest))
            end
          else if Ascii.eqb c "[" then
            match skip_json_ws r with
            | String "]" rest => Some (PList [], rest)
            | r => obind (rd_json_elements fuel r)
                     (fun '(l, rest) => Some (PList l, rest))
            end
          else if Ascii.eqb c dquote then
            obind (rd_json_string r) (fun '(t, rest) => Some (PStr t, rest))
          else if Ascii.eqb c "-" then
            obind (rd_json_int r) (fun '(z, rest) => Some (PInt (- z), rest))
          else
            match drop_prefix "null" s, drop_prefix "true" s,
                  drop_prefix "false" s with
            | Some rest, _, _ => Some (PNone, rest)
            | _, Some rest, _ => Some (PBool true, rest)
            | _, _, Some rest => Some (PBool false, rest)
            | _, _, _ =>
                obind (rd_json_int s) (fun '(z, rest) => Some (PInt z, rest))
            end
      | EmptyString => None
      end
  end
with rd_json_members (fuel : nat) (s : string) (acc : dict pyval)
  : option (dict pyval * string) :=
  match fuel with
  | O => None
  | S fuel =>
      match s with
      | String c r =>
          if Ascii.eqb c dquote then
            obind (rd_json_string r) (fun '(k, r) =>
            match skip_json_ws r with
            | String ":" r =>
                obind (rd_json_value fuel (skip_json_ws r)) (fun '(v, r) =>
                let acc := dict_set acc k v in
                match skip_json_ws r with
                | String "}" rest => Some (acc, rest)
                | String "," r => rd_json_members fuel (skip_json_ws r) acc
                | _ => None
                end)
            | _ => None
            end)
          else None
      | EmptyString => None
      end
  end
with rd_json_elements (fuel : nat) (s : string)
  : option (list pyval * string) :=
  match fuel with
  | O => None
  | S fuel =>
      obind (rd_json_value fuel s) (fun '(v, r) =>
      match skip_json_ws r with
      | String "]" rest => Some ([v], rest)
      | String "," r =>
          obind (rd_json_elements fuel (skip_json_ws r))
            (fun '(l, rest) => Some (v :: l, rest))
      | _ => None
      end)
  end.

Definition json_decode (s : string) : result pyval :=
  match rd_json_value (S (String.length s)) (skip_json_ws s) with
  | Some (v, rest) =>
      match skip_json_ws rest with
      | EmptyString => Ok v
      | _ => Raise JSONDecodeError
      end
  | None => Raise JSONDecodeError
  end.

(** ** The vocabulary of the properties *)

Definition is_sentinel (source : string) : bool :=
  String.eqb source "timestamp_gte" || String.eqb source "timestamp_lte".

(** The event field a scheme value draws on. *)
Definition source_field (source : string) : string :=
  if is_sentinel source then "timestamp" else source.

(** An instant printed as UTC in the form [YYYY-MM-DDTHH:MM:SSZ]. *)
Definition iso_utc (x : Z) : string := strftime_text (gmtime x).

(** [time.localtime] accepts the instant and [time.strftime] the local time
    it returns: the instant fits [time_t], and the local year fits a C [int]
    both as it is and less 1900. *)
Definition representable (tz : timezone) (x : Z) : bool :=
  fits_time_t x && fits_tm_year (tm_year (local_tm tz x))
  && fits_c_int (tm_year (local_tm tz x)).

(** The offsets of the zone are within a day of UTC. *)
Definition sane_zone (tz : timezone) : Prop :=
  (forall x, - 86400 <= utcoffset tz x <= 86400)
  /\ Forall (fun o => - 86400 <= o <= 86400) (tz_offsets tz).

(** The local offset does not change between the event and the two ends of
    the window, and [mktime] found the instant that shows the event's
    wall-clock time. *)
Definition steady (tz : timezone) (tm : struct_time) (n : Z) : Prop :=
  let t := mktime tz tm in
  t + utcoffset tz t = timegm tm
  /\ utcoffset tz (t - n) = utcoffset tz t
  /\ utcoffset tz (t + n) = utcoffset tz t.

(** The event has every field the scheme draws on. *)
Definition has_all_fields (ev : dict pyval) (translation : dict string)
  : bool :=
  forallb (fun kv => match dict_get ev (source_field (snd kv)) with
                     | Some _ => true
                     | None => false
                     end) translation.

(** The scheme has a time-boundary entry. *)
Definition uses_timestamp (translation : dict string) : bool :=
  existsb is_sentinel (map snd translation).

(** The event has no timestamp, or one [timestamp_range] makes a window
    of. *)
Definition timestamp_ok (tz : timezone) (n : Z) (ev : dict pyval) : bool :=
  match dict_get ev "timestamp" with
  | None => true
  | Some ts =>
      match timestamp_range tz ts n with
      | Ok _ => true
      | Raise _ => false
      end
  end.

(** What a key of the result holds when the window around [event_time] is
    printed as UTC: the time moved by [n] seconds for a time-boundary entry,
    and the event field the scheme names for any other. *)
Definition expected_value (ev : dict pyval) (event_time n : Z)
  (source : string) : option pyval :=
  if String.eqb source "timestamp_gte" then
    Some (PStr (iso_utc (event_time - n)))
  else if String.eqb source "timestamp_lte" then
    Some (PStr (iso_utc (event_time + n)))
  else dict_get ev source.

(** [params] has exactly the keys of the scheme, each with its expected
    value. *)
Definition window_params (ev : dict pyval) (translation : dict string)
  (event_time n : Z) (params : dict pyval) : Prop :=
  (forall k, In k (dict_keys params) <-> In k (dict_keys translation))
  /\ NoDup (dict_keys params)
  /\ forall k source,
       dict_get translation k = Some source ->
       dict_get params k = expected_value ev event_time n source.

Definition ends_with_Z (s : string) : bool :=
  match rev (list_ascii_of_string s) with
  | c :: _ => Ascii.eqb c "Z"
  | [] => false
  end.

Definition rd2 (a b : ascii) : option Z :=
  match digit a, digit b with
  | Some x, Some y => Some (10 * x + y)
  | _, _ => None
  end.

Definition rd_signed (s : string) : option Z :=
  option_map Z.of_int (NilZero.int_of_string s).

(** The instant a string of the form [Y-MM-DDTHH:MM:SSZ] names, read as the
    ISO-8601 time in UTC it claims to be; the year is a decimal numeral of
    any length and the other fields have two digits. *)
Definition iso_instant (s : string) : option Z :=
  match rev (list_ascii_of_string s) with
  | z :: s2 :: s1 :: c2 :: mi2 :: mi1 :: c1 :: h2 :: h1 :: t
      :: d2 :: d1 :: b2 :: mo2 :: mo1 :: b1 :: year =>
      if Ascii.eqb z "Z" && Ascii.eqb c2 ":" && Ascii.eqb c1 ":"
         && Ascii.eqb t "T" && Ascii.eqb b2 "-" && Ascii.eqb b1 "-"
      then
        obind (rd_signed (string_of_list_ascii (rev year))) (fun y =>
        obind (rd2 mo1 mo2) (fun mo =>
        obind (rd2 d1 d2) (fun d =>
        obind (rd2 h1 h2) (fun hh =>
        obind (rd2 mi1 mi2) (fun mi =>
        obind (rd2 s1 s2) (fun ss =>
        Some (timegm (mk_tm y mo d hh mi ss))))))))
      else None
  | _ => None
  end.

(** ** Examples *)

Definition example_event : dict pyval :=
  [("src_ip", PStr "10.0.0.1");
   ("src_port", PInt 443);
   ("dst_ip", PStr "192.0.2.7");
   ("dst_port", PInt 51234);
   ("proto", PStr "tcp");
   ("timestamp", PStr "2021-01-01 00:00:00")].

(** An event an hour before clocks go forward in US Eastern time. *)
Definition spring_event : dict pyval :=
  [("src_ip", PStr "10.0.0.1");
   ("timestamp", PStr "2021-03-14 01:59:58")].

Definition spring_tm : struct_time := mk_tm 2021 3 14 1 59 58.

(** An event four days before that change. *)
Definition march_event : dict pyval :=
  [("timestamp", PStr "2021-03-10 12:00:00")].

Definition example_params : dict pyval :=
  [("ip", PStr "10.0.0.1");
   ("port", PInt 443);
   ("connected_ip", PStr "192.0.2.7");
   ("connected_port", PInt 51234);
   ("protocol", PStr "tcp");
   ("start_timestamp_utc__gte", PStr "2020-12-31T23:59:55Z");
   ("start_timestamp_utc__lte", PStr "2021-01-01T00:00:05Z")].

(** An event without addresses and one whose timestamp is not a time. *)
Definition bare_event : dict pyval :=
  [("timestamp", PStr "2021-01-01 00:00:00")].

Definition bad_time_event : dict pyval :=
  [("timestamp", PStr "yesterday")].

(** A session record with its two byte counters. *)
Definition session (ip : string) (octets_in octets_out : Z) : pyval :=
  PDict [("ip", PStr ip);
         ("octets_in", PInt octets_in);
         ("octets_out", PInt octets_out)].

Definition example_sessions : list pyval :=
  [session "a" 10 5; session "b" 100 0; session "c" 7 8; session "d" 0 0;
   session "e" 50 50; session "f" 1 2; session "g" 15 0].

(** The order on keyed records that [reverse=True] asks for. *)
Definition total_ge (a b : Z * pyval) : Prop := fst b <= fst a.

(** The records whose total is [k], in the order they stand. *)
Definition with_total (k : Z) (l : list (Z * pyval)) : list (Z * pyval) :=
  filter (fun p => fst p =? k) l.

(** [str] of a scalar; a container is shown by its brackets alone. *)
Definition scalar_str (v : pyval) : string :=
  match v with
  | PNone => "None"
  | PBool true => "True"
  | PBool false => "False"
  | PInt z => str_of_Z z
  | PStr s => s
  | PList _ => "[]"
  | PDict _ => "{}"
  end.

(** A world in UTC with a key file, an event file holding [event_text] and a
    service that answers every request with [answer]. *)
Definition example_world (event_text : result string)
  (answer : result response) : world :=
  mk_world utc (Ok ("s3cr3t" ++ nl)) event_text json_decode
           (fun _ _ _ => answer) scalar_str scalar_str.

(** The same world without its key file. *)
Definition keyless_world : world :=
  mk_world utc (Raise IOError) (Ok "{}") json_decode
           (fun _ _ _ => Raise ConnectionError) scalar_str scalar_str.

Definition not_found_html : response :=
  mk_response 404 [("Content-Type", "text/html")] "<html></html>".

Definition ok_html : response :=
  mk_response 200 [("content-type", "text/html; charset=utf-8")]
              "<html></html>".

Definition ok_no_type : response :=
  mk_response 200 [("Server", "nginx")] "{}".

(** The same world with another decoder. *)
Definition with_json_loads (w : world) (f : string -> result pyval) : world :=
  mk_world (zone w) (key_file w) (event_file w) f (http_get w) (py_str w)
           (json_dumps w).

(** The lines the five failures write to the error stream. *)
Definition key_error_line : string :=
  nl ++ "Error: Unable to read key from 'swc_api_key.txt'..." ++ nl ++ nl.

Definition event_error_line : string :=
  nl ++ "Error: Unable to read from 'event.json'..." ++ nl ++ nl.

Definition connect_error_line (url : string) : string :=
  "Error: Unable to connect to the service using '" ++ url ++ " url..."
  ++ nl ++ nl.

Definition status_error_line (status : Z) : string :=
  "Error: Received not OK status code '" ++ str_of_Z status
  ++ "' from the service..." ++ nl ++ nl.

Definition content_error_line (content_type : string) : string :=
  "Error: Received not json formatted content '" ++ content_type
  ++ "' from the service..." ++ nl ++ nl.

(** The streams after one more line on the error stream. *)
Definition with_error (s : streams) (line : string) : streams :=
  mk_streams (stdout s) (stderr s ++ [line])%list.

(** ** The vocabulary of further properties *)

(** The value the loop of [create_params] finds for a scheme value, if the
    event has what it draws on. *)
Definition source_value (tz : timezone) (ev : dict pyval) (n : Z)
  (source : string) : option pyval :=
  if String.eqb source "timestamp_gte" then
    match dict_get ev "timestamp" with
    | Some ts =>
        match timestamp_range tz ts n with
        | Ok r => Some (PStr (fst r))
        | Raise _ => None
        end
    | None => None
    end
  else if String.eqb source "timestamp_lte" then
    match dict_get ev "timestamp" with
    | Some ts =>
        match timestamp_range tz ts n with
        | Ok r => Some (PStr (snd r))
        | Raise _ => None
        end
    | None => None
    end
  else dict_get ev source.

(** The scheme with each value replaced by what the event holds for it, the
    entries the event has nothing for left out. *)
Definition translate (tz : timezone) (ev : dict pyval) (n : Z)
  (translation : dict string) : dict pyval :=
  flat_map (fun kv => match source_value tz ev n (snd kv) with
                      | Some v => [(fst kv, v)]
                      | None => []
                      end) translation.

Definition newline : ascii := ascii_of_nat 10.

(** A computation is orderly for a list of exit codes when it only adds to
    the output stream, adds exactly one line to the error stream when it
    leaves through [sys.exit], with one of the codes, and leaves the error
    stream alone otherwise. *)
Definition orderly {A} (codes : list Z) (p : prog A) : Prop :=
  forall s,
    (exists out, stdout (fst (p s)) = (stdout s ++ out)%list)
    /\ match snd (p s) with
       | Exit c =>
           In c codes
           /\ exists line, stderr (fst (p s)) = (stderr s ++ [line])%list
       | _ => stderr (fst (p s)) = stderr s
       end.

(** A computation that never writes to the output stream. *)
Definition quiet {A} (p : prog A) : Prop :=
  forall s, stdout (fst (p s)) = stdout s.

(** The streams after more lines on the output stream. *)
Definition with_output (s : streams) (lines : list string) : streams :=
  mk_streams (stdout s ++ lines)%list (stderr s).

Definition println (text : string) : string := (text ++ nl)%string.

(** The four headers of [main], as they reach the output stream. *)
Definition header_matching : string :=
  println (nl ++ "Event matching session(s):").
Definition header_nearby : string :=
  println (nl ++ "Other session(s) matching the source and destination IP addresses (event time +/- 30secs):").
Definition header_talkers : string :=
  println (nl ++ "Top talkers matching the source IP address (event time +/- 30secs; displaying top 5):").
Definition header_alerts : string :=
  println (nl ++ "Alert(s) (event time +/- 30 mins):").

(** A JSON answer of the service with an empty list of objects, and a world
    whose event file holds an empty object, or a list. *)
(** The event has no timestamp, or a string [strptime] accepts. *)
Definition parseable_or_absent (ev : dict pyval) : bool :=
  match dict_get ev "timestamp" with
  | None => true
  | Some (PStr s) =>
      match strptime s with
      | Ok _ => true
      | Raise _ => false
      end
  | Some _ => false
  end.

(** A broken-down time of a year of four digits that names a day of the
    calendar and a second of the day. *)
Definition valid_tm (tm : struct_time) : bool :=
  (1000 <=? tm_year tm) && (tm_year tm <=? 9999)
  && (1 <=? tm_mon tm) && (tm_mon tm <=? 12)
  && (1 <=? tm_mday tm)
  && (tm_mday tm <=? days_in_month (tm_year tm) (tm_mon tm))
  && (0 <=? tm_hour tm) && (tm_hour tm <=? 23)
  && (0 <=? tm_min tm) && (tm_min tm <=? 59)
  && (0 <=? tm_sec tm) && (tm_sec tm <=? 59).

(** A year on four digits. *)
Definition year4 (y : Z) : string :=
  String (digit_char (y / 1000))
    (String (digit_char (y / 100 mod 10))
       (String (digit_char (y / 10 mod 10))
          (String (digit_char (y mod 10)) EmptyString))).

(** A time in the form of event timestamps, [%Y-%m-%d %H:%M:%S]. *)
Definition shown_time (tm : struct_time) : string :=
  str_of_Z (tm_year tm) ++ "-" ++ pad2 (tm_mon tm) ++ "-" ++ pad2 (tm_mday tm)
  ++ " " ++ pad2 (tm_hour tm) ++ ":" ++ pad2 (tm_min tm) ++ ":"
  ++ pad2 (tm_sec tm).

Fixpoint all_from (check : Z -> bool) (fuel : nat) (i : Z) : bool :=
  match fuel with
  | O => true
  | S fuel => check i && all_from check fuel (i + 1)
  end.

Fixpoint all_nonspace (s : string) : bool :=
  match s with
  | String c r => negb (is_space c) && all_nonspace r
  | EmptyString => true
  end.

(** A session record whose byte counters are decimal strings. *)
Definition text_session (ip : string) (octets_in octets_out : Z) : pyval :=
  PDict [("ip", PStr ip);
         ("octets_in", PStr (str_of_Z octets_in));
         ("octets_out", PStr (str_of_Z octets_out))].

(** A session record without its outgoing byte counter. *)
Definition half_session (ip : string) (octets_in : Z) : pyval :=
  PDict [("ip", PStr ip); ("octets_in", PInt octets_in)].



(** A session record with the ten fields the presenter reads. *)
Definition full_session (ip : string) (octets_in octets_out : Z) : pyval :=
  PDict [("start_timestamp_utc", PStr "2021-01-01T00:00:03Z");
         ("ip", PStr ip);
         ("port", PInt 443);
         ("connected_ip", PStr "192.0.2.7");
         ("connected_port", PInt 51234);
         ("protocol", PStr "TCP");
         ("octets_in", PInt octets_in);
         ("octets_out", PInt octets_out);
         ("packets_in", PInt 4);
         ("packets_out", PInt 6)].

Definition full_session_line (ip octets_in octets_out : string) : string :=
  "Time: 2021-01-01 00:00:03, Src: " ++ ip ++ ":443, Dst: 192.0.2.7:51234"
  ++ ", Proto: TCP, Data In: " ++ octets_in ++ ", Data Out: " ++ octets_out
  ++ ", Packets In: 4, Packets Out: 6".

Definition quoted (s : string) : string :=
  String dquote (s ++ String dquote EmptyString).

Definition ok_empty : response :=
  mk_response 200 [("Content-Type", "application/json; charset=utf-8")]
              ("{ " ++ quoted "objects" ++ ": [] }").

Definition event_text : string :=
  "{ " ++ quoted "src_ip" ++ ": " ++ quoted "10.0.0.1" ++ ", "
  ++ quoted "timestamp" ++ ": " ++ quoted "2021-01-01 00:00:00" ++ " }".

Fixpoint has_char (c : ascii) (s : string) : bool :=
  match s with
  | String a r => Ascii.eqb a c || has_char c r
  | EmptyString => false
  end.

Definition first_char (s : string) : option ascii :=
  match s with
  | String c _ => Some c
  | EmptyString => None
  end.

Fixpoint last_char (s : string) : option ascii :=
  match s with
  | String c EmptyString => Some c
  | String _ r => last_char r
  | EmptyString => None
  end.

(** The character at an end of a string, if there is one, is white space. *)
Definition edge_is_space (o : option ascii) : bool :=
  match o with
  | Some c => is_space c
  | None => false
  end.

(** No newline, unless it is the last character. *)
Fixpoint nl_only_last (s : string) : bool :=
  match s with
  | String c EmptyString => true
  | String c r => negb (Ascii.eqb c newline) && nl_only_last r
  | EmptyString => true
  end.

(** An event with a field the driver does not draw on. *)
Definition padded_event : dict pyval :=
  [("note", PStr "seen twice");
   ("src_ip", PStr "10.0.0.1");
   ("src_port", PInt 443);
   ("dst_ip", PStr "192.0.2.7");
   ("dst_port", PInt 51234);
   ("proto", PStr "tcp");
   ("timestamp", PStr "2021-01-01 00:00:00");
   ("severity", PInt 3)].

Definition is_mapping (v : pyval) : bool :=
  match v with
  | PDict _ => true
  | _ => false
  end.

(** ** Dictionaries: lookup after assignment *)

Lemma dict_get_set_eq {V} (d : dict V) k v :
  dict_get (dict_set d k v) k = Some v.
Proof.
  induction d as [|[k' v'] d IH]; simpl.
  - now rewrite String.eqb_refl.
  - destruct (String.eqb k' k) eqn:E; simpl; rewrite E; auto.
Qed.

Lemma dict_get_set_neq {V} (d : dict V) k k' v :
  k <> k' -> dict_get (dict_set d k v) k' = dict_get d k'.
Proof.
  intros Hne. induction d as [|[k0 v0] d IH]; simpl.
  - destruct (String.eqb k k') eqn:E; auto.
    apply String.eqb_eq in E. contradiction.
  - destruct (String.eqb k0 k) eqn:E; simpl.
    + apply String.eqb_eq in E. subst k0.
      destruct (String.eqb k k') eqn:E'; auto.
      apply String.eqb_eq in E'. contradiction.
    + now rewrite IH.
Qed.

Lemma dict_keys_set {V} (d : dict V) k v k' :
  In k' (dict_keys (dict_set d k v)) <-> k' = k \/ In k' (dict_keys d).
Proof.
  unfold dict_keys. induction d as [|[k0 v0] d IH]; simpl.
  - intuition.
  - destruct (String.eqb k0 k) eqn:E; simpl.
    + apply String.eqb_eq in E. subst. intuition.
    + rewrite IH. intuition.
Qed.

Lemma dict_set_NoDup {V} (d : dict V) k v :
  NoDup (dict_keys d) -> NoDup (dict_keys (dict_set d k v)).
Proof.
  unfold dict_keys. induction d as [|[k0 v0] d IH]; simpl; intros H.
  - constructor; [intros []|constructor].
  - inversion H as [|? ? Hnin Hnd]; subst.
    destruct (String.eqb k0 k) eqn:E; simpl.
    + constructor; auto.
    + constructor; auto.
      intros Hin. apply (dict_keys_set d k v k0) in Hin.
      destruct Hin as [->|Hin]; [|contradiction].
      now rewrite String.eqb_refl in E.
Qed.

Lemma dict_get_None {V} (d : dict V) k :
  dict_get d k = None <-> ~ In k (dict_keys d).
Proof.
  unfold dict_keys. induction d as [|[k0 v0] d IH]; simpl.
  - intuition.
  - destruct (String.eqb k0 k) eqn:E.
    + apply String.eqb_eq in E. subst. split; [discriminate|intuition].
    + rewrite IH. apply String.eqb_neq in E. intuition.
Qed.

Lemma dict_get_In {V} (d : dict V) k v :
  dict_get d k = Some v -> In k (dict_keys d).
Proof.
  intros H. destruct (in_dec string_dec k (dict_keys d)) as [|Hn]; auto.
  apply dict_get_None in Hn. congruence.
Qed.

(** ** Calendar: days and dates are inverse *)

Lemma civil_of_doe_inverse doe :
  0 <= doe < 146097 ->
  let '(yoe, m, d) := civil_of_doe doe in
  0 <= yoe < 400 /\ 1 <= m <= 12 /\ 1 <= d <= 31
  /\ doe_of_civil yoe m d = doe.
Proof.
  intros H. unfold civil_of_doe, doe_of_civil.
  set (n100 := Z.min (doe / 36524) 3).
  set (r1 := doe - n100 * 36524).
  set (n4 := r1 / 1461).
  set (r2 := r1 - n4 * 1461).
  set (n1 := Z.min (r2 / 365) 3).
  set (doy := r2 - n1 * 365).
  set (mp := (5 * doy + 2) / 153).
  assert (H100 : 0 <= n100 <= 3 /\ 0 <= r1 <= 36524).
  { subst r1 n100. Z.to_euclidean_division_equations. lia. }
  assert (H4 : 0 <= n4 <= 24 /\ 0 <= r2 <= 1460).
  { subst r2 n4. Z.to_euclidean_division_equations. lia. }
  assert (H1 : 0 <= n1 <= 3 /\ 0 <= doy <= 365).
  { subst doy n1. Z.to_euclidean_division_equations. lia. }
  assert (Hmp : 0 <= mp <= 11).
  { subst mp. Z.to_euclidean_division_equations. lia. }
  assert (Hdoe : doe = 36524 * n100 + 1461 * n4 + 365 * n1 + doy).
  { subst doy r2 r1. lia. }
  clearbody n100 r1 n4 r2 n1 doy.
  assert (Hm : (if 2 <? (if mp <? 10 then mp + 3 else mp - 9)
                then (if mp <? 10 then mp + 3 else mp - 9) - 3
                else (if mp <? 10 then mp + 3 else mp - 9) + 9) = mp).
  { destruct (mp <? 10) eqn:E.
    - assert ((2 <? mp + 3) = true) as -> by lia. lia.
    - assert ((2 <? mp - 9) = false) as -> by lia. lia. }
  rewrite Hm.
  repeat split; try lia.
  - destruct (mp <? 10) eqn:E; lia.
  - destruct (mp <? 10) eqn:E; lia.
  - subst mp. Z.to_euclidean_division_equations. lia.
  - subst mp. Z.to_euclidean_division_equations. lia.
  - Z.to_euclidean_division_equations. lia.
Qed.

Lemma civil_from_days_inverse z :
  let '(y, m, d) := civil_from_days z in
  days_from_civil y m d = z /\ 1 <= m <= 12 /\ 1 <= d <= 31.
Proof.
  unfold civil_from_days.
  set (era := (z + 719468) / 146097).
  set (doe := z + 719468 - era * 146097).
  assert (Hdoe : 0 <= doe < 146097).
  { subst doe era. Z.to_euclidean_division_equations. lia. }
  pose proof (civil_of_doe_inverse doe Hdoe) as H.
  destruct (civil_of_doe doe) as [[yoe m] d].
  destruct H as (Hy & Hm & Hd & Hinv).
  split; [|split; assumption].
  unfold days_from_civil.
  assert (Hy' : (if m <=? 2
                 then (if m <=? 2 then yoe + era * 400 + 1
                       else yoe + era * 400) - 1
                 else (if m <=? 2 then yoe + era * 400 + 1
                       else yoe + era * 400)) = yoe + era * 400).
  { destruct (m <=? 2); lia. }
  rewrite Hy'.
  assert (Hera : (yoe + era * 400) / 400 = era).
  { Z.to_euclidean_division_equations. lia. }
  rewrite Hera.
  replace (yoe + era * 400 - era * 400) with yoe by lia.
  rewrite Hinv. subst doe. lia.
Qed.

(** [gmtime] breaks an instant into fields of the usual ranges, and
    [timegm] puts them together again. *)
Lemma timegm_gmtime x :
  timegm (gmtime x) = x
  /\ 1 <= tm_mon (gmtime x) <= 12 /\ 1 <= tm_mday (gmtime x) <= 31
  /\ 0 <= tm_hour (gmtime x) <= 23 /\ 0 <= tm_min (gmtime x) <= 59
  /\ 0 <= tm_sec (gmtime x) <= 59.
Proof.
  unfold gmtime, timegm.
  pose proof (civil_from_days_inverse (x / 86400)) as H.
  destruct (civil_from_days (x / 86400)) as [[y m] d].
  destruct H as (Hinv & Hm & Hd). simpl. rewrite Hinv.
  repeat split; try lia; Z.to_euclidean_division_equations; lia.
Qed.

(** ** Reading back what [strftime] prints *)

Lemma list_ascii_app (a b : string) :
  list_ascii_of_string (a ++ b)
  = (list_ascii_of_string a ++ list_ascii_of_string b)%list.
Proof. induction a; simpl; congruence. Qed.

Lemma digit_digit_char d : 0 <= d <= 9 -> digit (digit_char d) = Some d.
Proof.
  intros H.
  assert (E : d = 0 \/ d = 1 \/ d = 2 \/ d = 3 \/ d = 4 \/ d = 5 \/ d = 6
              \/ d = 7 \/ d = 8 \/ d = 9) by lia.
  repeat (destruct E as [->|E]; [reflexivity|]). now subst.
Qed.

Lemma rd2_pad2 v :
  0 <= v < 100 -> rd2 (digit_char (v / 10)) (digit_char (v mod 10)) = Some v.
Proof.
  intros H. unfold rd2.
  rewrite !digit_digit_char by (Z.to_euclidean_division_equations; lia).
  f_equal. Z.to_euclidean_division_equations. lia.
Qed.

Lemma rd_signed_str_of_Z z : rd_signed (str_of_Z z) = Some z.
Proof.
  unfold rd_signed, str_of_Z. rewrite NilZero.isi.
  - simpl. now rewrite DecimalZ.of_to.
  - destruct z; simpl; try discriminate.
    intros H. injection H. apply DecimalPos.Unsigned.to_uint_nonnil.
  - destruct z; simpl; try discriminate.
    intros H. injection H. apply DecimalPos.Unsigned.to_uint_nonnil.
Qed.

(** The shape of what [strftime] prints, seen from its end. *)
Lemma strftime_rev tm :
  rev (list_ascii_of_string (strftime_text tm))
  = ("Z"%char
     :: digit_char (tm_sec tm mod 10) :: digit_char (tm_sec tm / 10)
     :: ":"%char
     :: digit_char (tm_min tm mod 10) :: digit_char (tm_min tm / 10)
     :: ":"%char
     :: digit_char (tm_hour tm mod 10) :: digit_char (tm_hour tm / 10)
     :: "T"%char
     :: digit_char (tm_mday tm mod 10) :: digit_char (tm_mday tm / 10)
     :: "-"%char
     :: digit_char (tm_mon tm mod 10) :: digit_char (tm_mon tm / 10)
     :: "-"%char
     :: rev (list_ascii_of_string (str_of_Z (tm_year tm))))%list.
Proof.
  unfold strftime_text. rewrite list_ascii_app, rev_app_distr. reflexivity.
Qed.

Lemma ends_with_Z_strftime tm : ends_with_Z (strftime_text tm) = true.
Proof. unfold ends_with_Z. now rewrite strftime_rev. Qed.

Lemma iso_instant_strftime tm :
  0 <= tm_mon tm < 100 -> 0 <= tm_mday tm < 100 -> 0 <= tm_hour tm < 100 ->
  0 <= tm_min tm < 100 -> 0 <= tm_sec tm < 100 ->
  iso_instant (strftime_text tm) = Some (timegm tm).
Proof.
  intros Hmo Hd Hh Hmi Hs. unfold iso_instant. rewrite strftime_rev.
  cbv beta iota. simpl andb. cbv iota.
  rewrite rev_involutive, string_of_list_ascii_of_string, rd_signed_str_of_Z.
  unfold obind. rewrite !rd2_pad2 by assumption.
  now destruct tm.
Qed.

(** Reading back the UTC print of an instant gives the instant. *)
Lemma iso_instant_utc x : iso_instant (iso_utc x) = Some x.
Proof.
  unfold iso_utc.
  destruct (timegm_gmtime x) as (Hx & Hmo & Hd & Hh & Hmi & Hs).
  rewrite iso_instant_strftime by lia. now rewrite Hx.
Qed.

(** ** What [strptime] returns, and when [localtime] accepts *)

Lemma digit_range c a : digit c = Some a -> 0 <= a <= 9.
Proof.
  unfold digit. destruct (_ && _) eqn:E; [|discriminate].
  intros H. injection H as <-. lia.
Qed.

Lemma rd_field_range two one s v r :
  rd_field two one s = Some (v, r) ->
  (exists a b, 0 <= a <= 9 /\ 0 <= b <= 9 /\ two a b = true
               /\ v = 10 * a + b)
  \/ (exists a, 0 <= a <= 9 /\ one a = true /\ v = a).
Proof.
  unfold rd_field. destruct s as [|c s]; [discriminate|].
  destruct (digit c) as [a|] eqn:Ea; [|discriminate].
  apply digit_range in Ea.
  assert (Hshort : (if one a then Some (a, s) else None) = Some (v, r) ->
                   exists a, 0 <= a <= 9 /\ one a = true /\ v = a).
  { destruct (one a) eqn:E; [|discriminate].
    intros H. injection H as <- <-. eauto. }
  destruct s as [|c' s']; [auto|].
  destruct (digit c') as [b|] eqn:Eb; [|auto].
  apply digit_range in Eb.
  destruct (two a b) eqn:E; [|auto].
  intros H. injection H as <- <-. left. exists a, b. auto.
Qed.

Lemma rd_year_range s y r : rd_year s = Some (y, r) -> 0 <= y <= 9999.
Proof.
  unfold rd_year. destruct s as [|a [|b [|c [|d s]]]]; try discriminate.
  destruct (digit a) as [x1|] eqn:Ea; [|discriminate].
  destruct (digit b) as [x2|] eqn:Eb; [|discriminate].
  destruct (digit c) as [x3|] eqn:Ec; [|discriminate].
  destruct (digit d) as [x4|] eqn:Ed; [|discriminate].
  apply digit_range in Ea, Eb, Ec, Ed.
  intros H.
  assert (E : y = 1000 * x1 + 100 * x2 + 10 * x3 + x4) by congruence.
  lia.
Qed.

Lemma rd_month_range s m r : rd_month s = Some (m, r) -> 1 <= m <= 12.
Proof.
  intros H. apply rd_field_range in H.
  destruct H as [(a & b & Ha & Hb & H & ->)|(a & Ha & H & ->)]; lia.
Qed.

Lemma rd_day_range s d r : rd_day s = Some (d, r) -> 1 <= d <= 31.
Proof.
  unfold rd_day. destruct (rd_field _ _ s) as [[d' r']|] eqn:E.
  - intros H. injection H as <- <-. apply rd_field_range in E.
    destruct E as [(a & b & Ha & Hb & H & ->)|(a & Ha & H & ->)]; lia.
  - destruct s as [|c s]; [discriminate|].
    destruct c as [[] [] [] [] [] [] [] []]; try discriminate.
    destruct s as [|c' s]; [discriminate|].
    destruct (digit c') as [a|] eqn:Ea; [|discriminate].
    apply digit_range in Ea. destruct (1 <=? a) eqn:E1; [|discriminate].
    intros H. injection H as <- <-. lia.
Qed.

Lemma rd_hour_range s h r : rd_hour s = Some (h, r) -> 0 <= h <= 23.
Proof.
  intros H. apply rd_field_range in H.
  destruct H as [(a & b & Ha & Hb & H & ->)|(a & Ha & H & ->)]; lia.
Qed.

Lemma rd_minute_range s m r : rd_minute s = Some (m, r) -> 0 <= m <= 59.
Proof.
  intros H. apply rd_field_range in H.
  destruct H as [(a & b & Ha & Hb & H & ->)|(a & Ha & H & ->)]; lia.
Qed.

Lemma rd_second_range s x r : rd_second s = Some (x, r) -> 0 <= x <= 61.
Proof.
  intros H. apply rd_field_range in H.
  destruct H as [(a & b & Ha & Hb & H & ->)|(a & Ha & H & ->)]; lia.
Qed.

(** The fields [strptime] returns are within the ranges of its
    directives. *)
Lemma strptime_range s tm :
  strptime s = Ok tm ->
  1 <= tm_year tm <= 9999 /\ 1 <= tm_mon tm <= 12 /\ 1 <= tm_mday tm <= 31
  /\ 0 <= tm_hour tm <= 23 /\ 0 <= tm_min tm <= 59 /\ 0 <= tm_sec tm <= 61.
Proof.
  unfold strptime. destruct (match_timestamp s) as [tm'|] eqn:E;
    [|discriminate].
  destruct (_ && _) eqn:Ey; [|discriminate].
  intros H. injection H as <-.
  unfold match_timestamp in E.
  destruct (rd_year s) as [[y s1]|] eqn:E1; [|discriminate].
  cbn [obind] in E.
  destruct (rd_char "-" s1) as [s2|]; [|discriminate]. cbn [obind] in E.
  destruct (rd_month s2) as [[m s3]|] eqn:E2; [|discriminate].
  cbn [obind] in E.
  destruct (rd_char "-" s3) as [s4|]; [|discriminate]. cbn [obind] in E.
  destruct (rd_day s4) as [[d s5]|] eqn:E3; [|discriminate].
  cbn [obind] in E.
  destruct (rd_spaces s5) as [s6|]; [|discriminate]. cbn [obind] in E.
  destruct (rd_hour s6) as [[hh s7]|] eqn:E4; [|discriminate].
  cbn [obind] in E.
  destruct (rd_char ":" s7) as [s8|]; [|discriminate]. cbn [obind] in E.
  destruct (rd_minute s8) as [[mi s9]|] eqn:E5; [|discriminate].
  cbn [obind] in E.
  destruct (rd_char ":" s9) as [s10|]; [|discriminate]. cbn [obind] in E.
  destruct (rd_second s10) as [[ss s11]|] eqn:E6; [|discriminate].
  cbn [obind] in E.
  destruct s11; [|discriminate]. injection E as <-. simpl in *.
  apply rd_year_range in E1. apply rd_month_range in E2.
  apply rd_day_range in E3. apply rd_hour_range in E4.
  apply rd_minute_range in E5. apply rd_second_range in E6.
  lia.
Qed.

Lemma timegm_range tm :
  1 <= tm_year tm <= 9999 -> 1 <= tm_mon tm <= 12 -> 1 <= tm_mday tm <= 31 ->
  0 <= tm_hour tm <= 23 -> 0 <= tm_min tm <= 59 -> 0 <= tm_sec tm <= 61 ->
  - 100000000000 <= timegm tm <= 300000000000.
Proof.
  intros Hy Hm Hd Hh Hmi Hs. unfold timegm, days_from_civil, doe_of_civil.
  destruct (tm_mon tm <=? 2) eqn:E1, (2 <? tm_mon tm) eqn:E2;
    Z.to_euclidean_division_equations; lia.
Qed.

Lemma mktime_near tz tm :
  sane_zone tz -> timegm tm - 86400 <= mktime tz tm <= timegm tm + 86400.
Proof.
  intros [_ Hz]. unfold mktime. rewrite Forall_forall in Hz.
  destruct (find _ (tz_offsets tz)) as [o|] eqn:E.
  - apply find_some in E. destruct E as [E _]. apply Hz in E. lia.
  - assert (H : - 86400 <= last (tz_offsets tz) 0 <= 86400).
    { clear E. induction (tz_offsets tz) as [|o l IH]; [simpl; lia|].
      destruct l as [|o' l'].
      - apply (Hz o). now left.
      - apply IH. intros x Hx. apply Hz. now right. }
    lia.
Qed.

Lemma gmtime_year_range x :
  - 1000000000000 <= x <= 1000000000000 ->
  fits_tm_year (tm_year (gmtime x)) = true
  /\ fits_c_int (tm_year (gmtime x)) = true.
Proof.
  intros Hx. unfold gmtime, civil_from_days.
  set (z := x / 86400).
  set (era := (z + 719468) / 146097).
  set (doe := z + 719468 - era * 146097).
  assert (Hz : - 12000000 <= z <= 12000000).
  { subst z. Z.to_euclidean_division_equations. lia. }
  assert (Hera : - 100 <= era <= 100).
  { subst era. Z.to_euclidean_division_equations. lia. }
  assert (Hdoe : 0 <= doe < 146097).
  { subst doe era. Z.to_euclidean_division_equations. lia. }
  pose proof (civil_of_doe_inverse doe Hdoe) as H.
  destruct (civil_of_doe doe) as [[yoe m] d].
  destruct H as (Hy & _). simpl. unfold fits_tm_year, fits_c_int.
  destruct (m <=? 2); lia.
Qed.

(** Around a timestamp [strptime] accepts, in a zone within a day of UTC,
    [localtime] and [strftime] accept every instant less than a million
    seconds away. *)
Lemma parsed_window_representable tz s tm x :
  sane_zone tz -> strptime s = Ok tm ->
  mktime tz tm - 1000000 <= x <= mktime tz tm + 1000000 ->
  representable tz x = true.
Proof.
  intros Hz Hp Hx.
  pose proof (mktime_near tz tm Hz) as Hm.
  apply strptime_range in Hp.
  destruct Hp as (Hy & Hmo & Hd & Hh & Hmi & Hs).
  pose proof (timegm_range tm Hy Hmo Hd Hh Hmi Hs) as Ht.
  destruct Hz as [Hoff _]. specialize (Hoff x).
  unfold representable, local_tm.
  destruct (gmtime_year_range (x + utcoffset tz x)) as [-> ->]; [lia|].
  unfold fits_time_t. lia.
Qed.

(** ** [create_params]: the loop *)

Section Loop.
Variables (tz : timezone) (event : pyval) (translation : dict string).
Variable n : Z.

(** The loop only ever assigns to keys it walks over, and never
    duplicates one. *)
Lemma loop_keys keys : forall params out,
  create_params_loop tz event translation n keys params = Ok out ->
  (forall k, In k (dict_keys out) -> In k (dict_keys params) \/ In k keys)
  /\ (NoDup (dict_keys params) -> NoDup (dict_keys out)).
Proof.
  induction keys as [|k0 ks IH]; simpl; intros params out H.
  - injection H as <-. auto.
  - destruct (param_entry tz event translation n k0) as [v|e].
    + apply IH in H. destruct H as [H1 H2]. split.
      * intros k Hk. apply H1 in Hk. destruct Hk as [Hk|Hk]; auto.
        apply dict_keys_set in Hk. destruct Hk as [->|Hk]; auto.
      * intros Hnd. apply H2. now apply dict_set_NoDup.
    + destruct (is_KeyError e); [|discriminate].
      apply IH in H. destruct H as [H1 H2]. split; auto.
      intros k Hk. apply H1 in Hk. tauto.
Qed.


(** If no entry raises anything but [KeyError], the loop returns. *)
Lemma loop_returns keys : forall params,
  (forall k, In k keys ->
     forall e, param_entry tz event translation n k = Raise e ->
               e = KeyError) ->
  exists out,
    create_params_loop tz event translation n keys params = Ok out.
Proof.
  induction keys as [|k0 ks IH]; simpl; intros params Hs.
  - eauto.
  - destruct (param_entry tz event translation n k0) as [v|e] eqn:E0.
    + apply IH. intros k Hk. apply Hs. auto.
    + rewrite (Hs k0 (or_introl eq_refl) e E0). simpl.
      apply IH. intros k Hk. apply Hs. auto.
Qed.

(** If every entry has a value, the loop assigns them in turn. *)
Lemma loop_assigns (f : string -> pyval) keys : forall params,
  (forall k, In k keys ->
             param_entry tz event translation n k = Ok (f k)) ->
  create_params_loop tz event translation n keys params
  = Ok (fold_left (fun p k => dict_set p k (f k)) keys params).
Proof.
  induction keys as [|k0 ks IH]; simpl; intros params Hs.
  - reflexivity.
  - rewrite (Hs k0 (or_introl eq_refl)). apply IH. intros k Hk. apply Hs. auto.
Qed.
End Loop.

Lemma fold_set_keys (f : string -> pyval) keys : forall params k,
  In k (dict_keys (fold_left (fun p k => dict_set p k (f k)) keys params))
  <-> In k (dict_keys params) \/ In k keys.
Proof.
  induction keys as [|k0 ks IH]; simpl; intros params k.
  - tauto.
  - rewrite IH, dict_keys_set. intuition.
Qed.

Lemma fold_set_other (f : string -> pyval) keys : forall params k,
  ~ In k keys ->
  dict_get (fold_left (fun p k => dict_set p k (f k)) keys params) k
  = dict_get params k.
Proof.
  induction keys as [|k0 ks IH]; simpl; intros params k Hn.
  - reflexivity.
  - rewrite IH by tauto. apply dict_get_set_neq. intros ->. tauto.
Qed.

Lemma fold_set_get (f : string -> pyval) keys : forall params k,
  In k keys ->
  dict_get (fold_left (fun p k => dict_set p k (f k)) keys params) k
  = Some (f k).
Proof.
  induction keys as [|k0 ks IH]; simpl; intros params k Hk.
  - contradiction.
  - destruct (in_dec string_dec k ks) as [Hin|Hn].
    + now apply IH.
    + destruct Hk as [->|Hk]; [|contradiction].
      rewrite fold_set_other by assumption. apply dict_get_set_eq.
Qed.

Lemma fold_set_NoDup (f : string -> pyval) keys : forall params,
  NoDup (dict_keys params) ->
  NoDup (dict_keys (fold_left (fun p k => dict_set p k (f k)) keys params)).
Proof.
  induction keys as [|k0 ks IH]; simpl; intros params H; auto.
  apply IH. now apply dict_set_NoDup.
Qed.

(** ** [create_params] *)

Lemma dict_get_In_snd {V} (d : dict V) k v :
  dict_get d k = Some v -> In v (map snd d).
Proof.
  induction d as [|[k0 v0] d IH]; simpl; [discriminate|].
  destruct (String.eqb k0 k); intros H; [injection H; auto|auto].
Qed.

Lemma is_sentinel_field source :
  is_sentinel source = true -> source_field source = "timestamp".
Proof. unfold source_field. now intros ->. Qed.

Lemma dict_get_In_pair {V} (d : dict V) k v :
  dict_get d k = Some v -> In (k, v) d.
Proof.
  induction d as [|[k0 v0] d IH]; simpl; [discriminate|].
  destruct (String.eqb k0 k) eqn:E; intros H; auto.
  apply String.eqb_eq in E. injection H as ->. subst. auto.
Qed.

Lemma has_all_fields_get ev translation :
  has_all_fields ev translation = true ->
  forall k source, dict_get translation k = Some source ->
                   dict_get ev (source_field source) <> None.
Proof.
  unfold has_all_fields. rewrite forallb_forall. intros H k source Hk.
  apply dict_get_In_pair in Hk. apply H in Hk. simpl in Hk.
  destruct (dict_get ev (source_field source)); congruence.
Qed.

(** With a usable timestamp, an entry fails with [KeyError] or not at all. *)
Lemma param_entry_safe tz ev translation n k e :
  (uses_timestamp translation = true -> timestamp_ok tz n ev = true) ->
  param_entry tz (PDict ev) translation n k = Raise e -> e = KeyError.
Proof.
  intros Hok. unfold param_entry, dict_getitem.
  destruct (dict_get translation k) as [source|] eqn:Hk;
    cbv beta iota delta [rbind]; [|congruence].
  assert (Hs : is_sentinel source = true -> timestamp_ok tz n ev = true).
  { intros Hs. apply Hok. unfold uses_timestamp. apply existsb_exists.
    exists source. split; [eapply dict_get_In_snd; eauto|assumption]. }
  unfold param_value, timestamp_ok, is_sentinel, py_getitem, dict_getitem
    in *.
  destruct (String.eqb source "timestamp_gte");
    [|destruct (String.eqb source "timestamp_lte")]; simpl orb in Hs.
  1,2: specialize (Hs eq_refl);
       destruct (dict_get ev "timestamp") as [ts|];
       cbv beta iota delta [rbind]; [|congruence];
       destruct (timestamp_range tz ts n);
       cbv beta iota delta [rbind]; congruence.
  destruct (dict_get ev source); congruence.
Qed.

(** An entry whose event field is missing raises [KeyError]. *)
Lemma param_entry_missing tz ev translation n k source :
  dict_get translation k = Some source ->
  dict_get ev (source_field source) = None ->
  param_entry tz (PDict ev) translation n k = Raise KeyError.
Proof.
  intros Hk Hf. unfold param_entry, dict_getitem. rewrite Hk. simpl.
  unfold param_value, source_field, is_sentinel in *. simpl.
  unfold dict_getitem.
  destruct (String.eqb source "timestamp_gte");
    [|destruct (String.eqb source "timestamp_lte")]; simpl in Hf;
    now rewrite Hf.
Qed.

Lemma localtime_representable tz x :
  representable tz x = true -> localtime tz x = Ok (local_tm tz x).
Proof.
  unfold representable, localtime. intros H.
  apply andb_true_iff in H. destruct H as [H _].
  apply andb_true_iff in H. destruct H as [-> ->]. reflexivity.
Qed.

Lemma strftime_representable tz x :
  representable tz x = true ->
  strftime (local_tm tz x) = Ok (strftime_text (local_tm tz x)).
Proof.
  unfold representable, strftime. intros H.
  apply andb_true_iff in H. destruct H as [_ ->]. reflexivity.
Qed.

(** With both ends of the window accepted, [timestamp_range] returns the two
    local times as [strftime] prints them. *)
Lemma timestamp_range_returns tz s tm n :
  strptime s = Ok tm ->
  representable tz (mktime tz tm - n) = true ->
  representable tz (mktime tz tm + n) = true ->
  timestamp_range tz (PStr s) n
  = Ok (strftime_text (local_tm tz (mktime tz tm - n)),
        strftime_text (local_tm tz (mktime tz tm + n))).
Proof.
  intros Hp Rlo Rhi. unfold timestamp_range.
  rewrite Hp. cbv beta iota delta [rbind].
  rewrite (localtime_representable _ _ Rlo). cbv beta iota.
  rewrite (strftime_representable _ _ Rlo). cbv beta iota.
  rewrite (localtime_representable _ _ Rhi). cbv beta iota.
  rewrite (strftime_representable _ _ Rhi). reflexivity.
Qed.

(** Under [steady], the local rendering of the shifted instants is the UTC
    rendering of the shifted wall-clock time. *)
Lemma steady_range tz s tm n :
  strptime s = Ok tm -> steady tz tm n ->
  representable tz (mktime tz tm - n) = true ->
  representable tz (mktime tz tm + n) = true ->
  timestamp_range tz (PStr s) n
  = Ok (iso_utc (timegm tm - n), iso_utc (timegm tm + n)).
Proof.
  intros Hp (Hm & Hlo & Hhi) Rlo Rhi.
  rewrite (timestamp_range_returns tz s tm n Hp Rlo Rhi).
  unfold local_tm, iso_utc. rewrite Hlo, Hhi.
  replace (mktime tz tm - n + utcoffset tz (mktime tz tm))
    with (timegm tm - n) by lia.
  replace (mktime tz tm + n + utcoffset tz (mktime tz tm))
    with (timegm tm + n) by lia.
  reflexivity.
Qed.

Lemma fixed_zone_steady off tm n : steady (fixed_zone off) tm n.
Proof.
  unfold steady, mktime. simpl. rewrite Z.eqb_refl. repeat split. lia.
Qed.

(** C10. Whenever [create_params] returns, every key of the result is a key
    of the scheme and no key occurs twice. *)
Theorem create_params_keys_from_scheme tz event translation n params :
  create_params tz event translation n = Ok params ->
  (forall k, In k (dict_keys params) -> In k (dict_keys translation))
  /\ NoDup (dict_keys params).
Proof.
  unfold create_params. intros H. apply loop_keys in H.
  destruct H as [H1 H2]. split.
  - intros k Hk. destruct (H1 k Hk) as [[]|]; assumption.
  - apply H2. constructor.
Qed.

Lemma create_params_keys_from_scheme_witness :
  create_params utc (PDict example_event) matching_translation 5
  = Ok example_params
  /\ (forall k, In k (dict_keys example_params) ->
                In k (dict_keys matching_translation))
  /\ NoDup (dict_keys example_params).
Proof.
  split; [reflexivity|].
  apply (create_params_keys_from_scheme utc (PDict example_event)
           matching_translation 5).
  reflexivity.
Defined.




(** C3, as the code has it. When the event has every field the scheme draws
    on, with a parseable timestamp; [mktime] finds the instant that shows the
    event's wall-clock time (there is none for a time the clocks skip), and
    the local offset is the same there and at the two ends of the window;
    and [time.localtime] and [time.strftime] accept the two ends:
    [create_params] returns exactly the keys of the scheme; a time-boundary
    key holds the event's wall-clock time moved by [n] seconds and printed in
    the form [YYYY-MM-DDTHH:MM:SSZ], any other key the event field the scheme
    names. *)
Theorem create_params_all_fields tz ev translation n s tm :
  dict_get ev "timestamp" = Some (PStr s) ->
  strptime s = Ok tm ->
  has_all_fields ev translation = true ->
  steady tz tm n ->
  representable tz (mktime tz tm - n) = true ->
  representable tz (mktime tz tm + n) = true ->
  exists params,
    create_params tz (PDict ev) translation n = Ok params
    /\ window_params ev translation (timegm tm) n params.
Proof.
  intros Hts Hp Hall Hst Rlo Rhi.
  pose proof (has_all_fields_get ev translation Hall) as Hall'.
  clear Hall. rename Hall' into Hall.
  set (value := fun source =>
         match expected_value ev (timegm tm) n source with
         | Some v => v
         | None => PNone
         end).
  set (f := fun k => match dict_get translation k with
                     | Some source => value source
                     | None => PNone
                     end).
  assert (Hentry : forall k, In k (dict_keys translation) ->
            param_entry tz (PDict ev) translation n k = Ok (f k)).
  { intros k Hk. unfold param_entry, dict_getitem, f.
    destruct (dict_get translation k) as [source|] eqn:E.
    2:{ apply dict_get_None in E. contradiction. }
    simpl. specialize (Hall k source E).
    unfold param_value, value, expected_value, source_field, is_sentinel in *.
    simpl. unfold dict_getitem.
    destruct (String.eqb source "timestamp_gte");
      [|destruct (String.eqb source "timestamp_lte")]; simpl in *.
    1,2: rewrite Hts; cbv beta iota delta [rbind];
         rewrite (steady_range tz s tm n Hp Hst Rlo Rhi); reflexivity.
    destruct (dict_get ev source); [reflexivity|contradiction]. }
  exists (fold_left (fun p k => dict_set p k (f k)) (dict_keys translation) []).
  split.
  - unfold create_params. now apply loop_assigns.
  - repeat split.
    + intros Hk. apply fold_set_keys in Hk. destruct Hk as [[]|]; assumption.
    + intros Hk. apply fold_set_keys. auto.
    + apply fold_set_NoDup. constructor.
    + intros k source Hk.
      rewrite fold_set_get by (eapply dict_get_In; eauto).
      unfold f. rewrite Hk. unfold value.
      destruct (expected_value ev (timegm tm) n source) eqn:E; auto.
      exfalso. specialize (Hall k source Hk).
      unfold expected_value, source_field, is_sentinel in *.
      destruct (String.eqb source "timestamp_gte");
        [|destruct (String.eqb source "timestamp_lte")]; simpl in *;
        try discriminate.
      contradiction.
Qed.

Lemma create_params_all_fields_witness :
  exists params,
    create_params utc (PDict example_event) matching_translation 5 = Ok params
    /\ window_params example_event matching_translation
         (timegm (mk_tm 2021 1 1 0 0 0)) 5 params.
Proof.
  apply (create_params_all_fields utc example_event matching_translation 5
           "2021-01-01 00:00:00" (mk_tm 2021 1 1 0 0 0)).
  - reflexivity.
  - reflexivity.
  - reflexivity.
  - unfold steady. repeat split; reflexivity.
  - reflexivity.
  - reflexivity.
Defined.

(** The first condition is needed: 02:30:00 on 2021-03-14 is a time the
    clocks of US Eastern skip; [mktime] returns the instant that shows
    03:30:00, the local offset is the same there and five seconds before and
    after, and the bounds are an hour off the event's wall-clock time. *)
Example skipped_hour_window :
  strptime "2021-03-14 02:30:00" = Ok (mk_tm 2021 3 14 2 30 0)
  /\ local_tm us_eastern (mktime us_eastern (mk_tm 2021 3 14 2 30 0))
     = mk_tm 2021 3 14 3 30 0
  /\ utcoffset us_eastern (mktime us_eastern (mk_tm 2021 3 14 2 30 0) - 5)
     = utcoffset us_eastern (mktime us_eastern (mk_tm 2021 3 14 2 30 0))
  /\ utcoffset us_eastern (mktime us_eastern (mk_tm 2021 3 14 2 30 0) + 5)
     = utcoffset us_eastern (mktime us_eastern (mk_tm 2021 3 14 2 30 0))
  /\ timestamp_range us_eastern (PStr "2021-03-14 02:30:00") 5
     = Ok ("2021-03-14T03:29:55Z", "2021-03-14T03:30:05Z").
Proof. repeat split; reflexivity. Qed.

(** A time the clocks of US Eastern show twice, 01:30:00 on 2021-11-07, is
    read as the earlier instant, in daylight time. *)
Example repeated_hour_mktime :
  mktime us_eastern (mk_tm 2021 11 7 1 30 0) = 1636263000
  /\ utcoffset us_eastern 1636263000 = -14400
  /\ local_tm us_eastern 1636263000 = mk_tm 2021 11 7 1 30 0
  /\ local_tm us_eastern (1636263000 + 3600) = mk_tm 2021 11 7 1 30 0.
Proof. repeat split; reflexivity. Qed.

(** C3 as stated fails where the local offset changes inside the window: in
    US Eastern time the upper bound of the window around 2021-03-14 01:59:58
    is printed as 03:00:03, which is the event time plus [n] printed as UTC
    under neither reading of the event time. *)
Lemma create_params_all_fields_counterexample :
  dict_get spring_event "timestamp" = Some (PStr "2021-03-14 01:59:58")
  /\ strptime "2021-03-14 01:59:58" = Ok spring_tm
  /\ has_all_fields spring_event talkers_translation = true
  /\ exists params,
       create_params us_eastern (PDict spring_event) talkers_translation 5
       = Ok params
       /\ dict_get params "start_timestamp_utc__lte"
          = Some (PStr "2021-03-14T03:00:03Z")
       /\ ~ window_params spring_event talkers_translation
              (timegm spring_tm) 5 params
       /\ ~ window_params spring_event talkers_translation
              (mktime us_eastern spring_tm) 5 params.
Proof.
  split; [reflexivity|]. split; [reflexivity|]. split; [reflexivity|].
  - eexists. split; [vm_compute; reflexivity|]. split; [reflexivity|].
    split; intros (_ & _ & H);
      specialize (H "start_timestamp_utc__lte" "timestamp_lte" eq_refl);
      vm_compute in H; discriminate.
Qed.

(** ** The failure paths *)

Lemma append_assoc (a b c : string) : ((a ++ b) ++ c = a ++ (b ++ c))%string.
Proof. induction a; simpl; congruence. Qed.

Lemma load_swc_key_ok w text s :
  key_file w = Ok text ->
  load_swc_key w s = (s, Return (strip (readline text))).
Proof. intros H. unfold load_swc_key, try_except, bind, lift. now rewrite H. Qed.

Lemma load_swc_key_unreadable w s :
  key_file w = Raise IOError ->
  load_swc_key w s = (with_error s key_error_line, Exit 1).
Proof.
  intros H. unfold load_swc_key, try_except, bind, lift. rewrite H. simpl.
  reflexivity.
Qed.

Lemma query_service_response w url parameters text resp s :
  key_file w = Ok text ->
  http_get w url (request_headers (strip (readline text))) parameters
  = Ok resp ->
  query_service w url parameters s
  = (if negb (status_code resp =? 200) then
       print_err ("Error: Received not OK status code '"
                  ++ str_of_Z (status_code resp)
                  ++ "' from the service..." ++ nl) ;;;
       sys_exit 4
     else
       match headers_get (headers resp) "Content-Type" with
       | None => throw TypeError
       | Some content_type =>
           if negb (str_in "application/json" content_type) then
             print_err ("Error: Received not json formatted content '"
                        ++ content_type ++ "' from the service..." ++ nl) ;;;
             sys_exit 5
           else
             lift (obj <- json_loads w (body resp) ;;
                   py_getitem obj "objects")
       end) s.
Proof.
  intros Hk Hr. unfold query_service. unfold bind at 1.
  rewrite (load_swc_key_ok w text s Hk).
  unfold bind at 1. unfold try_except. rewrite Hr. reflexivity.
Qed.

Lemma load_event_unreadable w s :
  event_file w = Raise IOError ->
  load_event w s = (with_error s event_error_line, Exit 2).
Proof.
  intros H. unfold load_event, try_except, lift. rewrite H. reflexivity.
Qed.

(** What is not an [IOError] goes through the handler of the event loader. *)
Lemma load_event_undecoded w s text e :
  event_file w = Ok text ->
  json_loads w text = Raise e ->
  is_IOError e = false ->
  load_event w s = (s, Uncaught e).
Proof.
  intros Hf Hj He. unfold load_event, try_except, lift. rewrite Hf. simpl.
  rewrite Hj. simpl. unfold throw. now rewrite He.
Qed.

(** C1, as the code has it. An event file that is read but does not decode
    raises [JSONDecodeError] out of [main]: nothing is printed, and the
    status of the process is that of an uncaught exception, not 2. *)
Theorem malformed_event_uncaught w s text :
  event_file w = Ok text ->
  json_loads w text = Raise JSONDecodeError ->
  main w s = (s, Uncaught JSONDecodeError)
  /\ exit_status (snd (main w s)) = 1.
Proof.
  intros Hf Hj.
  assert (H : main w s = (s, Uncaught JSONDecodeError)).
  { unfold main. unfold bind at 1.
    now rewrite (load_event_undecoded w s text JSONDecodeError Hf Hj). }
  now rewrite H.
Qed.

Lemma malformed_event_uncaught_witness :
  main (example_world (Ok "{") (Raise ConnectionError)) empty_streams
  = (empty_streams, Uncaught JSONDecodeError)
  /\ exit_status
       (snd (main (example_world (Ok "{") (Raise ConnectionError))
               empty_streams)) = 1.
Proof.
  apply (malformed_event_uncaught
           (example_world (Ok "{") (Raise ConnectionError)) empty_streams "{");
    reflexivity.
Defined.

(** C1 as stated fails: the event file holds an opening brace, which is not
    JSON; the program writes nothing to the error stream and does not end
    with status 2. *)
Lemma malformed_event_counterexample :
  json_decode "{" = Raise JSONDecodeError
  /\ stderr (fst (main (example_world (Ok "{") (Raise ConnectionError))
                    empty_streams)) = []
  /\ exit_status
       (snd (main (example_world (Ok "{") (Raise ConnectionError))
               empty_streams)) <> 2.
Proof.
  split; [reflexivity|]. split; [reflexivity|]. vm_compute. discriminate.
Qed.

(** C2. Each of the five failures writes its one line to the error stream
    and leaves with its own status: 1 for the key file, 2 for the event
    file, 3 for the connection, 4 for a status other than 200, 5 for a
    content type other than JSON. *)
Theorem failure_exit_codes w url parameters s :
  (key_file w = Raise IOError ->
     load_swc_key w s = (with_error s key_error_line, Exit 1)
     /\ query_service w url parameters s
        = (with_error s key_error_line, Exit 1))
  /\ (event_file w = Raise IOError ->
        main w s = (with_error s event_error_line, Exit 2))
  /\ (forall text,
        key_file w = Ok text ->
        http_get w url (request_headers (strip (readline text))) parameters
        = Raise ConnectionError ->
        query_service w url parameters s
        = (with_error s (connect_error_line url), Exit 3))
  /\ (forall text resp,
        key_file w = Ok text ->
        http_get w url (request_headers (strip (readline text))) parameters
        = Ok resp ->
        status_code resp <> 200 ->
        query_service w url parameters s
        = (with_error s (status_error_line (status_code resp)), Exit 4))
  /\ (forall text resp content_type,
        key_file w = Ok text ->
        http_get w url (request_headers (strip (readline text))) parameters
        = Ok resp ->
        status_code resp = 200 ->
        headers_get (headers resp) "Content-Type" = Some content_type ->
        str_in "application/json" content_type = false ->
        query_service w url parameters s
        = (with_error s (content_error_line content_type), Exit 5)).
Proof.
  repeat split.
  - now apply load_swc_key_unreadable.
  - unfold query_service. unfold bind at 1.
    now rewrite load_swc_key_unreadable.
  - intros H. unfold main. unfold bind at 1.
    now rewrite load_event_unreadable.
  - intros text Hk Hc. unfold query_service. unfold bind at 1.
    rewrite (load_swc_key_ok w text s Hk).
    unfold bind at 1. unfold try_except, lift. rewrite Hc.
    unfold throw. simpl. unfold with_error, connect_error_line.
    now rewrite !append_assoc.
  - intros text resp Hk Hr Hs.
    rewrite (query_service_response w url parameters text resp s Hk Hr).
    apply Z.eqb_neq in Hs. rewrite Hs. simpl.
    unfold bind, print_err, sys_exit, with_error, status_error_line. simpl.
    now rewrite !append_assoc.
  - intros text resp content_type Hk Hr Hs Hh Hc.
    rewrite (query_service_response w url parameters text resp s Hk Hr).
    rewrite Hs, Hh, Hc. simpl.
    unfold bind, print_err, sys_exit, with_error, content_error_line. simpl.
    now rewrite !append_assoc.
Qed.

Lemma failure_exit_codes_witness :
  load_swc_key keyless_world empty_streams
  = (with_error empty_streams key_error_line, Exit 1)
  /\ main (example_world (Raise IOError) (Ok not_found_html)) empty_streams
     = (with_error empty_streams event_error_line, Exit 2)
  /\ query_service (example_world (Ok "{}") (Raise ConnectionError))
       SWC_ALERT_URL [] empty_streams
     = (with_error empty_streams (connect_error_line SWC_ALERT_URL), Exit 3)
  /\ query_service (example_world (Ok "{}") (Ok not_found_html))
       SWC_ALERT_URL [] empty_streams
     = (with_error empty_streams (status_error_line 404), Exit 4)
  /\ query_service (example_world (Ok "{}") (Ok ok_html))
       SWC_ALERT_URL [] empty_streams
     = (with_error empty_streams
          (content_error_line "text/html; charset=utf-8"), Exit 5).
Proof.
  split; [|split; [|split; [|split]]].
  - apply (failure_exit_codes keyless_world SWC_ALERT_URL [] empty_streams).
    reflexivity.
  - apply (failure_exit_codes
             (example_world (Raise IOError) (Ok not_found_html))
             SWC_ALERT_URL [] empty_streams).
    reflexivity.
  - apply (proj1 (proj2 (proj2
             (failure_exit_codes
                (example_world (Ok "{}") (Raise ConnectionError))
                SWC_ALERT_URL [] empty_streams))) ("s3cr3t" ++ nl)%string);
      reflexivity.
  - apply (proj1 (proj2 (proj2 (proj2
             (failure_exit_codes
                (example_world (Ok "{}") (Ok not_found_html))
                SWC_ALERT_URL [] empty_streams))))
             ("s3cr3t" ++ nl)%string not_found_html);
      [reflexivity|reflexivity|discriminate].
  - apply (proj2 (proj2 (proj2 (proj2
             (failure_exit_codes
                (example_world (Ok "{}") (Ok ok_html))
                SWC_ALERT_URL [] empty_streams))))
             ("s3cr3t" ++ nl)%string ok_html "text/html; charset=utf-8");
      reflexivity.
Defined.

(** C7, as the code has it. A response with status 200 whose content type
    is there and does not contain [application/json] ends [query_service]
    with the content-type line and status 5, whatever the JSON decoder
    would make of the body: the body is not decoded. *)
Theorem non_json_content_type w url parameters s text resp content_type
  (decoder : string -> result pyval) :
  key_file w = Ok text ->
  http_get w url (request_headers (strip (readline text))) parameters
  = Ok resp ->
  status_code resp = 200 ->
  headers_get (headers resp) "Content-Type" = Some content_type ->
  str_in "application/json" content_type = false ->
  query_service (with_json_loads w decoder) url parameters s
  = (with_error s (content_error_line content_type), Exit 5).
Proof.
  intros Hk Hr Hs Hh Hc.
  rewrite (query_service_response (with_json_loads w decoder) url parameters
             text resp s Hk Hr).
  rewrite Hs, Hh, Hc. simpl.
  unfold bind, print_err, sys_exit, with_error, content_error_line. simpl.
  now rewrite !append_assoc.
Qed.

Lemma non_json_content_type_witness :
  query_service
    (with_json_loads (example_world (Ok "{}") (Ok ok_html))
       (fun _ => Raise JSONDecodeError))
    SWC_SESSION_URL [] empty_streams
  = (with_error empty_streams
       (content_error_line "text/html; charset=utf-8"), Exit 5).
Proof.
  apply (non_json_content_type (example_world (Ok "{}") (Ok ok_html))
           SWC_SESSION_URL [] empty_streams ("s3cr3t" ++ nl)%string ok_html
           "text/html; charset=utf-8" (fun _ => Raise JSONDecodeError));
    reflexivity.
Defined.

(** C7 as stated fails: a 404 response of type [text/html] leaves through
    the status check, with status 4. *)
Lemma non_json_content_type_counterexample :
  headers_get (headers not_found_html) "Content-Type" = Some "text/html"
  /\ str_in "application/json" "text/html" = false
  /\ snd (query_service (example_world (Ok "{}") (Ok not_found_html))
            SWC_SESSION_URL [] empty_streams) = Exit 4
  /\ snd (query_service (example_world (Ok "{}") (Ok not_found_html))
            SWC_SESSION_URL [] empty_streams) <> Exit 5.
Proof.
  split; [reflexivity|]. split; [reflexivity|]. split; [reflexivity|].
  vm_compute. discriminate.
Qed.

(** C9. A response with status 200 and no content type at all does not reach
    the content-type error: the membership test raises [TypeError], which
    nothing catches, and nothing is printed. *)
Theorem missing_content_type w url parameters s text resp :
  key_file w = Ok text ->
  http_get w url (request_headers (strip (readline text))) parameters
  = Ok resp ->
  status_code resp = 200 ->
  headers_get (headers resp) "Content-Type" = None ->
  query_service w url parameters s = (s, Uncaught TypeError).
Proof.
  intros Hk Hr Hs Hh.
  rewrite (query_service_response w url parameters text resp s Hk Hr).
  now rewrite Hs, Hh.
Qed.

Lemma missing_content_type_witness :
  query_service (example_world (Ok "{}") (Ok ok_no_type))
    SWC_SESSION_URL [] empty_streams
  = (empty_streams, Uncaught TypeError).
Proof.
  apply (missing_content_type (example_world (Ok "{}") (Ok ok_no_type))
           SWC_SESSION_URL [] empty_streams ("s3cr3t" ++ nl)%string ok_no_type);
    reflexivity.
Defined.

(** ** The sort of the driver *)

Lemma insert_desc_perm {A} (k : Z) (x : A) l :
  Permutation (insert_desc k x l) ((k, x) :: l).
Proof.
  induction l as [|[k' x'] l IH]; simpl; auto.
  destruct (k <? k'); auto.
  rewrite IH. apply perm_swap.
Qed.

Lemma sort_desc_perm {A} (l : list (Z * A)) : Permutation (sort_desc l) l.
Proof.
  induction l as [|[k x] l IH]; simpl; auto.
  rewrite insert_desc_perm. now constructor.
Qed.

Lemma insert_desc_sorted k x l :
  StronglySorted total_ge l -> StronglySorted total_ge (insert_desc k x l).
Proof.
  induction 1 as [|[k' x'] l Hs IH Hall]; simpl.
  - repeat constructor.
  - destruct (k <? k') eqn:E.
    + constructor; auto.
      eapply Permutation_Forall; [symmetry; apply insert_desc_perm|].
      constructor; auto. unfold total_ge. simpl. lia.
    + constructor; [constructor; auto|].
      constructor; [unfold total_ge; simpl; lia|].
      eapply Forall_impl; [|exact Hall].
      unfold total_ge. simpl. intros a Ha. lia.
Qed.

Lemma sort_desc_sorted l : StronglySorted total_ge (sort_desc l).
Proof.
  induction l as [|[k x] l IH]; simpl; [constructor|].
  now apply insert_desc_sorted.
Qed.

(** Inserting a record puts it first among the records of its total. *)
Lemma insert_desc_with_total k0 k x l :
  with_total k0 (insert_desc k x l)
  = if k =? k0 then (k, x) :: with_total k0 l else with_total k0 l.
Proof.
  unfold with_total. induction l as [|[k' x'] l IH]; simpl.
  - reflexivity.
  - destruct (k <? k') eqn:E; simpl.
    + rewrite IH. destruct (k =? k0) eqn:E0; auto.
      assert ((k' =? k0) = false) as -> by lia. reflexivity.
    + reflexivity.
Qed.

Lemma sort_desc_stable k0 l : with_total k0 (sort_desc l) = with_total k0 l.
Proof.
  induction l as [|[k x] l IH]; simpl; auto.
  rewrite insert_desc_with_total, IH. reflexivity.
Qed.

Lemma skipn_incl {A} (l : list A) : forall n b, In b (skipn n l) -> In b l.
Proof.
  induction l as [|x l IH]; intros [|n] b H; simpl in *; eauto.
Qed.

(** In a sorted list, what a slice keeps is no less than what it drops. *)
Lemma sorted_firstn_skipn l : forall n a b,
  StronglySorted total_ge l ->
  In a (firstn n l) -> In b (skipn n l) -> total_ge a b.
Proof.
  induction l as [|x l IH]; intros [|n] a b Hs Ha Hb; simpl in *;
    try contradiction.
  inversion Hs as [|? ? Hs' Hall]; subst.
  destruct Ha as [<-|Ha].
  - rewrite Forall_forall in Hall. apply Hall.
    eapply skipn_incl; eauto.
  - eauto.
Qed.

Lemma mapM_combine {A B} (f : A -> result B) l : forall keys,
  mapM f l = Ok keys ->
  length keys = length l
  /\ map snd (combine keys l) = l
  /\ Forall (fun p => f (snd p) = Ok (fst p)) (combine keys l).
Proof.
  induction l as [|x l IH]; simpl; intros keys H.
  - injection H as <-. auto.
  - destruct (f x) as [y|] eqn:Ex; simpl in H; [|discriminate].
    destruct (mapM f l) as [ys|] eqn:El; simpl in H; [|discriminate].
    injection H as <-. destruct (IH ys eq_refl) as (H1 & H2 & H3).
    simpl. repeat split; auto. now f_equal.
Qed.

(** C6. When every record has integer byte counters, the driver's sort is a
    rearrangement of the records in descending order of
    [octets_in + octets_out] that keeps records of equal total in the order
    they had, and the slice keeps the first five: no record it drops has a
    higher total than a record it keeps. *)
Theorem top_talkers_stable_descending l keys :
  mapM session_total l = Ok keys ->
  let keyed := combine keys l in
  let sorted := sort_desc keyed in
  map snd keyed = l
  /\ Forall (fun p => session_total (snd p) = Ok (fst p)) keyed
  /\ sort_sessions (PList l) = Ok (PList (map snd sorted))
  /\ Permutation sorted keyed
  /\ StronglySorted total_ge sorted
  /\ (forall k, with_total k sorted = with_total k keyed)
  /\ top_talkers (PList l) = Ok (PList (map snd (firstn 5 sorted)))
  /\ length (firstn 5 sorted) = Nat.min 5 (length l)
  /\ (forall a b, In a (firstn 5 sorted) -> In b (skipn 5 sorted) ->
                  total_ge a b).
Proof.
  intros H keyed sorted.
  destruct (mapM_combine session_total l keys H) as (Hlen & Hsnd & Hall).
  assert (Hperm : Permutation sorted keyed) by apply sort_desc_perm.
  repeat split; auto.
  - unfold sort_sessions. rewrite H. reflexivity.
  - apply sort_desc_sorted.
  - intros k. apply sort_desc_stable.
  - unfold top_talkers, sort_sessions. rewrite H.
    cbv beta iota delta [rbind top5]. now rewrite firstn_map.
  - rewrite length_firstn. f_equal.
    rewrite (Permutation_length Hperm). unfold keyed.
    rewrite length_combine, Hlen. apply Nat.min_id.
  - intros a b. apply sorted_firstn_skipn, sort_desc_sorted.
Qed.

Lemma top_talkers_stable_descending_witness :
  top_talkers (PList example_sessions)
  = Ok (PList [session "b" 100 0; session "e" 50 50; session "a" 10 5;
               session "c" 7 8; session "g" 15 0]).
Proof.
  apply (top_talkers_stable_descending example_sessions
           [15; 100; 15; 0; 100; 3; 15]).
  reflexivity.
Defined.

(** ** The alert window *)

(** C8, as the code has it. In a zone whose offsets are within a day of UTC
    and for an event with a parseable timestamp, the parameters of the alert
    query are [time__gte], [time__lte] and [status], the last set to [all];
    when moreover [mktime] finds the instant that shows the event's
    wall-clock time and the local offset is the same there and seven days
    before and after, the two bounds are the event's wall-clock time less and
    plus exactly seven days of 86400 seconds, printed in the form
    [YYYY-MM-DDTHH:MM:SSZ]. *)
Theorem alert_params_window tz ev s tm :
  sane_zone tz ->
  dict_get ev "timestamp" = Some (PStr s) ->
  strptime s = Ok tm ->
  (exists gte lte,
     alert_params tz (PDict ev)
     = Ok [("time__gte", PStr gte); ("time__lte", PStr lte);
           ("status", PStr "all")])
  /\ (steady tz tm (7 * 86400) ->
      alert_params tz (PDict ev)
      = Ok [("time__gte", PStr (iso_utc (timegm tm - 7 * 86400)));
            ("time__lte", PStr (iso_utc (timegm tm + 7 * 86400)));
            ("status", PStr "all")]).
Proof.
  intros Hz Hts Hp.
  assert (Rlo : representable tz (mktime tz tm - 7 * 86400) = true)
    by (eapply parsed_window_representable; eauto; lia).
  assert (Rhi : representable tz (mktime tz tm + 7 * 86400) = true)
    by (eapply parsed_window_representable; eauto; lia).
  assert (Hrun : forall gte lte,
            timestamp_range tz (PStr s) (3600 * 24 * 7) = Ok (gte, lte) ->
            alert_params tz (PDict ev)
            = Ok [("time__gte", PStr gte); ("time__lte", PStr lte);
                  ("status", PStr "all")]).
  { intros gte lte Hr.
    unfold alert_params, create_params, alert_translation.
    cbn -[timestamp_range Z.mul]. unfold param_entry, param_value.
    cbn -[timestamp_range Z.mul]. unfold dict_getitem.
    rewrite Hts. cbn -[timestamp_range Z.mul]. rewrite Hr. reflexivity. }
  change (3600 * 24 * 7) with (7 * 86400) in Hrun.
  split.
  - eexists _, _. apply Hrun.
    apply (timestamp_range_returns tz s tm (7 * 86400) Hp Rlo Rhi).
  - intros Hst. apply Hrun.
    apply (steady_range tz s tm (7 * 86400) Hp Hst Rlo Rhi).
Qed.

Lemma alert_params_window_witness :
  alert_params utc (PDict example_event)
  = Ok [("time__gte", PStr "2020-12-25T00:00:00Z");
        ("time__lte", PStr "2021-01-08T00:00:00Z");
        ("status", PStr "all")].
Proof.
  refine (proj2 (alert_params_window utc example_event "2021-01-01 00:00:00"
                   (mk_tm 2021 1 1 0 0 0) _ _ _) _).
  - split; [intros x; simpl; lia|].
    constructor; [lia|constructor].
  - reflexivity.
  - reflexivity.
  - unfold steady. repeat split; reflexivity.
Defined.

(** C8 as stated fails where the clocks change inside the fortnight: in US
    Eastern time the bounds around 2021-03-10 12:00:00 are printed as
    2021-03-03T12:00:00Z and 2021-03-17T13:00:00Z, seven days less and seven
    days and an hour more than the event's time, so that they are the ends of
    a window of seven days either side of no time at all. *)
Lemma alert_params_window_counterexample :
  dict_get march_event "timestamp" = Some (PStr "2021-03-10 12:00:00")
  /\ strptime "2021-03-10 12:00:00" = Ok (mk_tm 2021 3 10 12 0 0)
  /\ alert_params us_eastern (PDict march_event)
     = Ok [("time__gte", PStr "2021-03-03T12:00:00Z");
           ("time__lte", PStr "2021-03-17T13:00:00Z");
           ("status", PStr "all")]
  /\ iso_instant "2021-03-03T12:00:00Z" = Some (1615377600 - 7 * 86400)
  /\ iso_instant "2021-03-17T13:00:00Z" = Some (1615377600 + 7 * 86400 + 3600)
  /\ forall event_time,
       ~ ("2021-03-03T12:00:00Z" = iso_utc (event_time - 7 * 86400)
          /\ "2021-03-17T13:00:00Z" = iso_utc (event_time + 7 * 86400)).
Proof.
  split; [reflexivity|]. split; [reflexivity|]. split; [reflexivity|].
  split; [reflexivity|]. split; [reflexivity|].
  intros event_time [Hlo Hhi].
  apply (f_equal iso_instant) in Hlo, Hhi.
  rewrite iso_instant_utc in Hlo, Hhi.
  assert (A : iso_instant "2021-03-03T12:00:00Z" = Some 1614772800)
    by reflexivity.
  assert (B : iso_instant "2021-03-17T13:00:00Z" = Some 1615986000)
    by reflexivity.
  rewrite A in Hlo. rewrite B in Hhi.
  injection Hlo as Hlo. injection Hhi as Hhi. lia.
Qed.

(** ** The width of the window *)

(** C5, as the code has it. Whenever the local offset is the same at the two
    ends of the window, and [time.localtime] and [time.strftime] accept them,
    [timestamp_range] returns two strings that end in Z and, read as UTC,
    name instants exactly [2 * n] seconds apart. *)
Theorem timestamp_range_width tz s tm n :
  strptime s = Ok tm ->
  utcoffset tz (mktime tz tm + n) = utcoffset tz (mktime tz tm - n) ->
  representable tz (mktime tz tm - n) = true ->
  representable tz (mktime tz tm + n) = true ->
  exists gte lte a b,
    timestamp_range tz (PStr s) n = Ok (gte, lte)
    /\ iso_instant gte = Some a /\ iso_instant lte = Some b
    /\ b - a = 2 * n
    /\ ends_with_Z gte = true /\ ends_with_Z lte = true.
Proof.
  intros Hp Hoff Rlo Rhi.
  set (t := mktime tz tm) in *.
  exists (strftime_text (local_tm tz (t - n))),
         (strftime_text (local_tm tz (t + n))),
         (t - n + utcoffset tz (t - n)), (t + n + utcoffset tz (t + n)).
  split.
  { exact (timestamp_range_returns tz s tm n Hp Rlo Rhi). }
  split; [exact (iso_instant_utc _)|]. split; [exact (iso_instant_utc _)|].
  split; [rewrite Hoff; lia|].
  split; apply ends_with_Z_strftime.
Qed.

Lemma timestamp_range_width_witness :
  exists gte lte a b,
    timestamp_range utc (PStr "2021-01-01 00:00:00") 5 = Ok (gte, lte)
    /\ iso_instant gte = Some a /\ iso_instant lte = Some b
    /\ b - a = 2 * 5
    /\ ends_with_Z gte = true /\ ends_with_Z lte = true.
Proof.
  apply (timestamp_range_width utc "2021-01-01 00:00:00"
           (mk_tm 2021 1 1 0 0 0) 5); reflexivity.
Defined.

(** A year that [localtime] returns and [strftime] refuses: the window ends
    in the year [2 ^ 31], and the call dies of [OverflowError]. *)
Example timestamp_range_year_overflow :
  localtime utc (1609459200 + 67767974624073600)
  = Ok (mk_tm (2 ^ 31) 1 1 0 0 0)
  /\ timestamp_range utc (PStr "2021-01-01 00:00:00") 67767974624073600
     = Raise OverflowError
  /\ timestamp_range utc (PStr "2021-01-01 00:00:00") (2 ^ 62)
     = Raise IOError.
Proof. repeat split; reflexivity. Qed.

(** C5 as stated fails where the clocks change inside the window: in US
    Eastern time the two strings around 2021-03-14 01:59:58 with [n = 5]
    name instants 3610 seconds apart. *)
Lemma timestamp_range_width_counterexample :
  strptime "2021-03-14 01:59:58" = Ok spring_tm
  /\ timestamp_range us_eastern (PStr "2021-03-14 01:59:58") 5
     = Ok ("2021-03-14T01:59:53Z", "2021-03-14T03:00:03Z")
  /\ iso_instant "2021-03-14T01:59:53Z" = Some 1615687193
  /\ iso_instant "2021-03-14T03:00:03Z" = Some 1615690803
  /\ 1615690803 - 1615687193 <> 2 * 5.
Proof.
  repeat split; try reflexivity. discriminate.
Qed.

(** ** [create_params]: the whole result *)

Lemma dict_set_fresh {V} (d : dict V) k v :
  ~ In k (dict_keys d) -> dict_set d k v = (d ++ [(k, v)])%list.
Proof.
  unfold dict_keys. induction d as [|[k0 v0] d IH]; simpl; intros H; auto.
  destruct (String.eqb k0 k) eqn:E.
  - apply String.eqb_eq in E. tauto.
  - rewrite IH; tauto.
Qed.

Lemma dict_get_NoDup {V} (d : dict V) k v :
  NoDup (dict_keys d) -> In (k, v) d -> dict_get d k = Some v.
Proof.
  unfold dict_keys. induction d as [|[k0 v0] d IH]; simpl; intros Hnd Hin.
  - contradiction.
  - inversion Hnd as [|? ? Hn Hnd']; subst.
    destruct Hin as [E|Hin].
    + injection E as -> ->. now rewrite String.eqb_refl.
    + destruct (String.eqb k0 k) eqn:E; auto.
      apply String.eqb_eq in E. subst k0. exfalso. apply Hn.
      change k with (fst (k, v)). now apply in_map.
Qed.

(** What one turn of the loop does with a scheme value on a mapping whose
    timestamp is usable. *)
Lemma param_value_source tz ev n source :
  (is_sentinel source = true -> timestamp_ok tz n ev = true) ->
  param_value tz (PDict ev) source n
  = match source_value tz ev n source with
    | Some v => Ok v
    | None => Raise KeyError
    end.
Proof.
  unfold param_value, source_value, is_sentinel, timestamp_ok, py_getitem,
    dict_getitem.
  destruct (String.eqb source "timestamp_gte");
    [|destruct (String.eqb source "timestamp_lte")]; simpl orb; intros H.
  1,2: specialize (H eq_refl);
       destruct (dict_get ev "timestamp") as [ts|];
       cbv beta iota delta [rbind]; [|reflexivity];
       destruct (timestamp_range tz ts n);
       cbv beta iota delta [rbind]; [reflexivity|discriminate].
  destruct (dict_get ev source); reflexivity.
Qed.

Lemma translate_keys tz ev n translation k :
  In k (dict_keys (translate tz ev n translation)) ->
  In k (dict_keys translation).
Proof.
  unfold translate, dict_keys. induction translation as [|[k0 s0] tr IH];
    simpl; auto.
  rewrite map_app, in_app_iff. intros [H|H]; auto.
  destruct (source_value tz ev n s0); simpl in H; tauto.
Qed.

Lemma loop_translate tz ev n translation : forall done rest params,
  translation = (done ++ rest)%list ->
  NoDup (dict_keys translation) ->
  (uses_timestamp translation = true -> timestamp_ok tz n ev = true) ->
  (forall k, In k (dict_keys params) -> In k (dict_keys done)) ->
  create_params_loop tz (PDict ev) translation n (dict_keys rest) params
  = Ok (params ++ translate tz ev n rest)%list.
Proof.
  intros done rest. revert done.
  induction rest as [|[k source] rest IH]; intros done params Ht Hnd Hok Hp.
  - simpl. now rewrite app_nil_r.
  - assert (Hin : In (k, source) translation).
    { rewrite Ht. apply in_or_app. right. now left. }
    assert (Hfresh : ~ In k (dict_keys params)).
    { intros Hk. apply Hp in Hk. rewrite Ht in Hnd. unfold dict_keys in *.
      rewrite map_app in Hnd. simpl in Hnd.
      apply NoDup_remove_2 in Hnd. apply Hnd. apply in_or_app. now left. }
    simpl. unfold param_entry, dict_getitem.
    rewrite (dict_get_NoDup translation k source Hnd Hin).
    cbv beta iota delta [rbind].
    rewrite param_value_source.
    2:{ intros Hs. apply Hok. unfold uses_timestamp. apply existsb_exists.
        exists source. split; [|assumption].
        change source with (snd (k, source)). now apply in_map. }
    unfold translate at 1. simpl flat_map. fold (translate tz ev n rest).
    destruct (source_value tz ev n source) as [v|]; simpl is_KeyError;
      cbv iota.
    + rewrite (IH (done ++ [(k, source)])%list).
      * rewrite dict_set_fresh by assumption.
        now rewrite <- app_assoc.
      * now rewrite <- app_assoc.
      * assumption.
      * assumption.
      * intros k' Hk'. apply dict_keys_set in Hk'. unfold dict_keys.
        rewrite map_app, in_app_iff. simpl.
        destruct Hk' as [->|Hk']; [auto|]. left. now apply Hp.
    + rewrite (IH (done ++ [(k, source)])%list); auto.
      * now rewrite <- app_assoc.
      * intros k' Hk'. unfold dict_keys. rewrite map_app, in_app_iff.
        left. now apply Hp.
Qed.

(** X1. On a mapping whose timestamp is usable, [create_params] returns the
    scheme in its order, each value replaced by what the event holds for it,
    without the entries the event has nothing for. *)
Theorem create_params_translate tz ev n translation :
  NoDup (dict_keys translation) ->
  (uses_timestamp translation = true -> timestamp_ok tz n ev = true) ->
  create_params tz (PDict ev) translation n
  = Ok (translate tz ev n translation).
Proof.
  intros Hnd Hok. unfold create_params.
  exact (loop_translate tz ev n translation [] translation [] eq_refl Hnd Hok
           (fun k H => match H with end)).
Qed.

Lemma create_params_translate_witness :
  create_params utc (PDict bare_event) matching_translation 5
  = Ok [("start_timestamp_utc__gte", PStr "2020-12-31T23:59:55Z");
        ("start_timestamp_utc__lte", PStr "2021-01-01T00:00:05Z")].
Proof.
  apply (create_params_translate utc bare_event 5 matching_translation).
  - repeat constructor; simpl; intuition discriminate.
  - reflexivity.
Defined.

(** ** [create_params]: failures and edge cases *)

Lemma loop_raises tz event translation n e keys : forall params,
  create_params_loop tz event translation n keys params = Raise e ->
  exists k, In k keys
            /\ param_entry tz event translation n k = Raise e
            /\ is_KeyError e = false.
Proof.
  induction keys as [|k0 ks IH]; simpl; intros params H; [discriminate|].
  destruct (param_entry tz event translation n k0) as [v|e0] eqn:E0.
  - destruct (IH _ H) as (k & Hk & He). eauto.
  - destruct (is_KeyError e0) eqn:Ek.
    + destruct (IH _ H) as (k & Hk & He). eauto.
    + injection H as <-. eauto.
Qed.

Lemma loop_all_missing tz event translation n keys : forall params,
  (forall k, In k keys ->
             param_entry tz event translation n k = Raise KeyError) ->
  create_params_loop tz event translation n keys params = Ok params.
Proof.
  induction keys as [|k0 ks IH]; simpl; intros params H; auto.
  rewrite (H k0 (or_introl eq_refl)). simpl. apply IH. auto.
Qed.

Lemma loop_ext tz event1 event2 translation n keys : forall params,
  (forall k, In k keys ->
             param_entry tz event1 translation n k
             = param_entry tz event2 translation n k) ->
  create_params_loop tz event1 translation n keys params
  = create_params_loop tz event2 translation n keys params.
Proof.
  induction keys as [|k0 ks IH]; simpl; intros params H; auto.
  rewrite (H k0 (or_introl eq_refl)).
  destruct (param_entry tz event2 translation n k0) as [v|e]; auto.
  destruct (is_KeyError e); auto.
Qed.

(** X2. On a mapping, [create_params] fails in one way only: the scheme has
    a time-boundary entry, the event has a timestamp, and [timestamp_range]
    raises on it; the exception is that one, and never a [KeyError]. *)
Theorem create_params_failure_cause tz ev translation n e :
  create_params tz (PDict ev) translation n = Raise e ->
  is_KeyError e = false
  /\ uses_timestamp translation = true
  /\ exists ts, dict_get ev "timestamp" = Some ts
                /\ timestamp_range tz ts n = Raise e.
Proof.
  unfold create_params. intros H. apply loop_raises in H.
  destruct H as (k & _ & He & Hk). split; [assumption|].
  unfold param_entry, dict_getitem in He.
  destruct (dict_get translation k) as [source|] eqn:Et;
    cbv beta iota delta [rbind] in He;
    [|injection He as <-; discriminate].
  assert (Hs : is_sentinel source = true ->
               uses_timestamp translation = true).
  { intros Hs. unfold uses_timestamp. apply existsb_exists.
    exists source. split; [eapply dict_get_In_snd; eauto|assumption]. }
  unfold param_value, is_sentinel, py_getitem, dict_getitem in *.
  destruct (String.eqb source "timestamp_gte");
    [|destruct (String.eqb source "timestamp_lte")]; simpl orb in Hs.
  1,2: split; [auto|];
       destruct (dict_get ev "timestamp") as [ts|];
       cbv beta iota delta [rbind] in He;
       [|injection He as <-; discriminate];
       exists ts; split; [reflexivity|];
       destruct (timestamp_range tz ts n);
       cbv beta iota delta [rbind] in He;
       [discriminate|injection He as <-; reflexivity].
  destruct (dict_get ev source); [discriminate|].
  injection He as <-. discriminate.
Qed.

Lemma create_params_failure_cause_witness :
  is_KeyError ValueError = false
  /\ uses_timestamp matching_translation = true
  /\ exists ts, dict_get bad_time_event "timestamp" = Some ts
                /\ timestamp_range utc ts 5 = Raise ValueError.
Proof.
  apply (create_params_failure_cause utc bad_time_event matching_translation
           5 ValueError).
  reflexivity.
Defined.

Lemma create_params_type_error tz event translation n :
  is_mapping event = false ->
  translation <> [] ->
  create_params tz event translation n = Raise TypeError.
Proof.
  intros Hm Hne. destruct translation as [|[k source] tr]; [contradiction|].
  unfold create_params. simpl. unfold param_entry, dict_getitem. simpl.
  rewrite String.eqb_refl. cbv beta iota delta [rbind].
  assert (Hv : param_value tz event source n = Raise TypeError).
  { unfold param_value.
    assert (Hg : forall key, py_getitem event key = Raise TypeError).
    { intros key. destruct event; try reflexivity. discriminate. }
    destruct (String.eqb source "timestamp_gte");
      [|destruct (String.eqb source "timestamp_lte")];
      now rewrite Hg. }
  now rewrite Hv.
Qed.

(** X3. An event that is not a mapping makes [create_params] raise
    [TypeError] at the first entry of the scheme. *)
Theorem create_params_not_mapping tz event translation n :
  is_mapping event = false ->
  translation <> [] ->
  create_params tz event translation n = Raise TypeError.
Proof. exact (create_params_type_error tz event translation n). Qed.

Lemma create_params_not_mapping_witness :
  create_params utc (PList [PDict example_event]) talkers_translation 30
  = Raise TypeError.
Proof.
  apply (create_params_not_mapping utc (PList [PDict example_event])
           talkers_translation 30); [reflexivity|discriminate].
Defined.

Lemma create_params_no_fields tz ev translation n :
  (forall source, In source (map snd translation) ->
                  dict_get ev (source_field source) = None) ->
  create_params tz (PDict ev) translation n = Ok [].
Proof.
  intros H. unfold create_params. apply loop_all_missing.
  intros k _. destruct (dict_get translation k) as [source|] eqn:E.
  - eapply param_entry_missing; eauto.
    apply H. eapply dict_get_In_snd; eauto.
  - unfold param_entry, dict_getitem. now rewrite E.
Qed.

(** X4. A mapping with none of the fields the scheme draws on gives no
    parameters at all, and no error: the query that follows is not
    narrowed. *)
Theorem create_params_nothing_to_copy tz ev translation n :
  (forall source, In source (map snd translation) ->
                  dict_get ev (source_field source) = None) ->
  create_params tz (PDict ev) translation n = Ok [].
Proof. exact (create_params_no_fields tz ev translation n). Qed.

Lemma create_params_nothing_to_copy_witness :
  create_params us_eastern (PDict [("severity", PInt 3)])
    matching_translation 5 = Ok [].
Proof.
  apply (create_params_nothing_to_copy us_eastern [("severity", PInt 3)]
           matching_translation 5).
  intros source H. simpl in H.
  repeat (destruct H as [<-|H]; [reflexivity|]). contradiction.
Defined.

(** X5. [create_params] reads the event only at the fields the scheme draws
    on: two events that agree there give the same result, parameters or
    exception. *)
Theorem create_params_reads_scheme_fields tz ev1 ev2 translation n :
  (forall source, In source (map snd translation) ->
                  dict_get ev1 (source_field source)
                  = dict_get ev2 (source_field source)) ->
  create_params tz (PDict ev1) translation n
  = create_params tz (PDict ev2) translation n.
Proof.
  intros H. unfold create_params. apply loop_ext. intros k _.
  unfold param_entry, dict_getitem.
  destruct (dict_get translation k) as [source|] eqn:E; [|reflexivity].
  cbv beta iota delta [rbind].
  specialize (H source (dict_get_In_snd _ _ _ E)).
  unfold param_value, source_field, is_sentinel, py_getitem, dict_getitem
    in *.
  destruct (String.eqb source "timestamp_gte");
    [|destruct (String.eqb source "timestamp_lte")]; simpl in H;
    now rewrite H.
Qed.

Lemma create_params_reads_scheme_fields_witness :
  create_params utc (PDict padded_event) matching_translation 5
  = create_params utc (PDict example_event) matching_translation 5.
Proof.
  apply (create_params_reads_scheme_fields utc padded_event example_event
           matching_translation 5).
  intros source H. simpl in H.
  repeat (destruct H as [<-|H]; [reflexivity|]). contradiction.
Defined.

(** ** [timestamp_range]: fixed zones and the sign of [n] *)

Lemma fixed_zone_sane off :
  - 86400 <= off <= 86400 -> sane_zone (fixed_zone off).
Proof.
  intros H. split; [intros x; exact H|].
  constructor; [exact H|constructor].
Qed.

(** X6. In a zone with one fixed offset, whatever the offset, the two bounds
    are the wall-clock time of the event less and plus [n], printed with a
    Z: the offset of the zone cancels out of the result. *)
Theorem timestamp_range_fixed_zone off s tm n :
  - 86400 <= off <= 86400 ->
  - 1000000 <= n <= 1000000 ->
  strptime s = Ok tm ->
  timestamp_range (fixed_zone off) (PStr s) n
  = Ok (iso_utc (timegm tm - n), iso_utc (timegm tm + n)).
Proof.
  intros Hoff Hn Hp.
  apply steady_range; [assumption|apply fixed_zone_steady| |];
    (eapply parsed_window_representable;
     [apply fixed_zone_sane; assumption|eassumption|lia]).
Qed.

Lemma timestamp_range_fixed_zone_witness :
  timestamp_range (fixed_zone 19800) (PStr "2021-01-01 00:00:00") 30
  = Ok (iso_utc (timegm (mk_tm 2021 1 1 0 0 0) - 30),
        iso_utc (timegm (mk_tm 2021 1 1 0 0 0) + 30)).
Proof.
  apply (timestamp_range_fixed_zone 19800 "2021-01-01 00:00:00"
           (mk_tm 2021 1 1 0 0 0) 30); [lia|lia|reflexivity].
Defined.

(** X7. A negative half-width is not refused: it gives the window of the
    positive one with its two ends exchanged. *)
Theorem timestamp_range_negated tz ts n gte lte :
  timestamp_range tz ts n = Ok (gte, lte) ->
  timestamp_range tz ts (- n) = Ok (lte, gte).
Proof.
  unfold timestamp_range. destruct ts as [| | |s| |]; try discriminate.
  destruct (strptime s) as [tm|]; cbv beta iota delta [rbind];
    [|discriminate].
  replace (mktime tz tm - - n) with (mktime tz tm + n) by lia.
  replace (mktime tz tm + - n) with (mktime tz tm - n) by lia.
  destruct (localtime tz (mktime tz tm - n)) as [a|]; [|discriminate].
  destruct (strftime a) as [ta|]; [|discriminate].
  destruct (localtime tz (mktime tz tm + n)) as [b|]; [|discriminate].
  destruct (strftime b) as [tb|]; [|discriminate].
  intros H. injection H as <- <-. reflexivity.
Qed.

Lemma timestamp_range_negated_witness :
  timestamp_range utc (PStr "2021-01-01 00:00:00") (- 5)
  = Ok ("2021-01-01T00:00:05Z", "2020-12-31T23:59:55Z").
Proof.
  apply (timestamp_range_negated utc (PStr "2021-01-01 00:00:00") 5).
  reflexivity.
Defined.

(** ** [load_swc_key]: the key *)

Lemma nl_only_last_tail c r :
  nl_only_last (String c r) = true -> nl_only_last r = true.
Proof.
  destruct r as [|a r]; [reflexivity|].
  change (nl_only_last (String c (String a r)))
    with (negb (Ascii.eqb c newline) && nl_only_last (String a r)).
  intros H. apply andb_true_iff in H. tauto.
Qed.

Lemma readline_nl_only_last s : nl_only_last (readline s) = true.
Proof.
  induction s as [|c r IH]; [reflexivity|].
  simpl. fold newline. destruct (Ascii.eqb c newline) eqn:E; [reflexivity|].
  destruct (readline r) as [|a t]; [reflexivity|].
  change (negb (Ascii.eqb c newline) && nl_only_last (String a t) = true).
  now rewrite E, IH.
Qed.

Lemma skip_spaces_nl_only_last s :
  nl_only_last s = true -> nl_only_last (skip_spaces s) = true.
Proof.
  induction s as [|c r IH]; [auto|]. intros H. simpl.
  destruct (is_space c); [|assumption].
  apply IH. eapply nl_only_last_tail; eauto.
Qed.

Lemma rstrip_empty s : rstrip s = EmptyString -> forall c r, s = String c r ->
  is_space c = true.
Proof.
  intros H c r ->. simpl in H. destruct (rstrip r); [|discriminate].
  destruct (is_space c); [reflexivity|discriminate].
Qed.

Lemma rstrip_no_newline s :
  nl_only_last s = true -> has_char newline (rstrip s) = false.
Proof.
  induction s as [|c r IH]; [reflexivity|]. intros H.
  pose proof (nl_only_last_tail c r H) as Hr. specialize (IH Hr).
  simpl. destruct (rstrip r) as [|a t] eqn:E.
  - destruct (is_space c) eqn:Es; [reflexivity|]. simpl.
    destruct (Ascii.eqb c newline) eqn:En; [|reflexivity].
    apply Ascii.eqb_eq in En. subst c. discriminate.
  - destruct r as [|b r']; [discriminate|].
    change (negb (Ascii.eqb c newline) && nl_only_last (String b r') = true)
      in H.
    apply andb_true_iff in H. destruct H as [Hc _].
    simpl in *. rewrite IH. now destruct (Ascii.eqb c newline).
Qed.

Lemma skip_spaces_first s :
  edge_is_space (first_char (skip_spaces s)) = false.
Proof.
  induction s as [|c r IH]; [reflexivity|]. simpl.
  destruct (is_space c) eqn:E; [assumption|]. simpl. exact E.
Qed.

Lemma rstrip_first s :
  edge_is_space (first_char s) = false ->
  edge_is_space (first_char (rstrip s)) = false.
Proof.
  destruct s as [|c r]; [auto|]. simpl. intros H.
  destruct (rstrip r); [rewrite H|]; exact H.
Qed.

Lemma rstrip_last s : edge_is_space (last_char (rstrip s)) = false.
Proof.
  induction s as [|c r IH]; [reflexivity|]. simpl.
  destruct (rstrip r) as [|a t].
  - destruct (is_space c) eqn:E; [reflexivity|exact E].
  - exact IH.
Qed.

Lemma readline_prefix s : exists rest, s = (readline s ++ rest)%string.
Proof.
  induction s as [|c r [rest IH]]; [now exists EmptyString|]. simpl.
  destruct (Ascii.eqb c (ascii_of_nat 10)).
  - now exists r.
  - exists rest. simpl. now rewrite <- IH.
Qed.

Lemma skip_spaces_suffix s : exists pre, s = (pre ++ skip_spaces s)%string.
Proof.
  induction s as [|c r [pre IH]]; [now exists EmptyString|]. simpl.
  destruct (is_space c).
  - exists (String c pre). simpl. now rewrite <- IH.
  - now exists EmptyString.
Qed.

Lemma rstrip_prefix s : exists post, s = (rstrip s ++ post)%string.
Proof.
  induction s as [|c r [post IH]]; [now exists EmptyString|]. simpl.
  destruct (rstrip r) as [|a t].
  - destruct (is_space c).
    + now exists (String c r).
    + exists post. simpl. now rewrite IH.
  - exists post. simpl. now rewrite IH.
Qed.

(** X8. When the key file can be read, [load_swc_key] prints nothing and
    returns a piece of the file's text that holds no newline and neither
    starts nor ends with white space. *)
Theorem load_swc_key_clean w text s :
  key_file w = Ok text ->
  exists key,
    load_swc_key w s = (s, Return key)
    /\ (exists before after, text = (before ++ key ++ after)%string)
    /\ has_char newline key = false
    /\ edge_is_space (first_char key) = false
    /\ edge_is_space (last_char key) = false.
Proof.
  intros H. exists (strip (readline text)).
  split; [now apply load_swc_key_ok|]. unfold strip. split.
  - destruct (readline_prefix text) as [rest Hr].
    destruct (skip_spaces_suffix (readline text)) as [pre Hs].
    destruct (rstrip_prefix (skip_spaces (readline text))) as [post Hp].
    exists pre, (post ++ rest)%string.
    rewrite <- (append_assoc (rstrip (skip_spaces (readline text))) post rest).
    rewrite <- Hp.
    rewrite <- (append_assoc pre (skip_spaces (readline text)) rest).
    rewrite <- Hs. exact Hr.
  - split; [|split].
    + apply rstrip_no_newline, skip_spaces_nl_only_last,
        readline_nl_only_last.
    + apply rstrip_first, skip_spaces_first.
    + apply rstrip_last.
Qed.

Lemma load_swc_key_clean_witness :
  exists key,
    load_swc_key (example_world (Ok "{}") (Raise ConnectionError))
      empty_streams = (empty_streams, Return key)
    /\ (exists before after,
          ("s3cr3t" ++ nl)%string = (before ++ key ++ after)%string)
    /\ has_char newline key = false
    /\ edge_is_space (first_char key) = false
    /\ edge_is_space (last_char key) = false.
Proof.
  apply (load_swc_key_clean (example_world (Ok "{}") (Raise ConnectionError))
           ("s3cr3t" ++ nl)%string empty_streams).
  reflexivity.
Defined.

(** ** The streams and the exit codes *)

Lemma orderly_ret {A} codes (a : A) : orderly codes (ret a).
Proof. intros s. simpl. split; [exists []; now rewrite app_nil_r|auto]. Qed.

Lemma orderly_throw {A} codes e : orderly codes (@throw A e).
Proof. intros s. simpl. split; [exists []; now rewrite app_nil_r|auto]. Qed.

Lemma orderly_lift {A} codes (r : result A) : orderly codes (lift r).
Proof. destruct r; [apply orderly_ret|apply orderly_throw]. Qed.

Lemma orderly_print codes text : orderly codes (print text).
Proof. intros s. simpl. split; [eauto|reflexivity]. Qed.

Lemma orderly_bind {A B} codes (p : prog A) (k : A -> prog B) :
  orderly codes p -> (forall a, orderly codes (k a)) ->
  orderly codes (bind p k).
Proof.
  intros Hp Hk s. unfold bind. specialize (Hp s).
  destruct (p s) as [s' [a|c|e]]; simpl in Hp; try exact Hp.
  destruct Hp as [[out Hout] Herr]. specialize (Hk a s').
  destruct Hk as [[out' Hout'] Herr']. split.
  - exists (out ++ out')%list. now rewrite Hout', Hout, app_assoc.
  - destruct (snd (k a s')); now rewrite <- Herr.
Qed.

(** The handler of every [except] clause of the program: one line on the
    error stream, then [sys.exit]. *)
Lemma orderly_failure {A} codes text c :
  In c codes -> orderly codes (print_err text ;;; @sys_exit A c).
Proof.
  intros Hc s. simpl. split; [exists []; now rewrite app_nil_r|].
  split; [assumption|eauto].
Qed.

Lemma orderly_try_lift {A} codes (r : result A) catches text c :
  In c codes ->
  orderly codes (try_except (lift r) catches (print_err text ;;; sys_exit c)).
Proof.
  intros Hc s. unfold try_except.
  destruct r as [a|e]; simpl; [split; [exists []; now rewrite app_nil_r|auto]|].
  destruct (catches e); simpl.
  - split; [exists []; now rewrite app_nil_r|]. split; [assumption|eauto].
  - split; [exists []; now rewrite app_nil_r|auto].
Qed.

Lemma orderly_for_each {A} codes (body : A -> prog unit) l :
  (forall x, orderly codes (body x)) -> orderly codes (for_each l body).
Proof.
  intros H. induction l as [|x l IH]; simpl.
  - apply orderly_ret.
  - apply orderly_bind; auto.
Qed.

Lemma load_swc_key_orderly codes w : In 1 codes -> orderly codes (load_swc_key w).
Proof.
  intros H s. destruct (key_file w) as [text|e] eqn:E.
  - rewrite (load_swc_key_ok w text s E). simpl.
    split; [exists []; now rewrite app_nil_r|auto].
  - unfold load_swc_key, try_except, bind, lift. rewrite E. simpl.
    destruct (is_IOError e); simpl.
    + split; [exists []; now rewrite app_nil_r|]. split; [assumption|eauto].
    + split; [exists []; now rewrite app_nil_r|auto].
Qed.

Lemma query_service_orderly w url parameters :
  orderly [1; 3; 4; 5] (query_service w url parameters).
Proof.
  unfold query_service. apply orderly_bind.
  - apply load_swc_key_orderly. simpl. auto.
  - intros key. apply orderly_bind.
    + apply orderly_try_lift. simpl. auto.
    + intros resp. destruct (negb (status_code resp =? 200)).
      * apply orderly_failure. simpl. auto.
      * destruct (headers_get (headers resp) "Content-Type") as [ct|].
        -- destruct (negb (str_in "application/json" ct)).
           ++ apply orderly_failure. simpl. auto.
           ++ apply orderly_lift.
        -- apply orderly_throw.
Qed.

Lemma orderly_weaken {A} codes codes' (p : prog A) :
  incl codes codes' -> orderly codes p -> orderly codes' p.
Proof.
  intros Hi Hp s. destruct (Hp s) as [Hout Herr]. split; [assumption|].
  destruct (snd (p s)); auto. destruct Herr. auto.
Qed.

Lemma print_sessions_orderly codes w sessions :
  orderly codes (print_sessions w sessions).
Proof.
  unfold print_sessions. apply orderly_bind; [apply orderly_lift|].
  intros l. apply orderly_for_each. intros x.
  apply orderly_bind; [apply orderly_lift|]. intros. apply orderly_print.
Qed.

Lemma print_alerts_orderly codes w alerts :
  orderly codes (print_alerts w alerts).
Proof.
  unfold print_alerts. apply orderly_bind; [apply orderly_lift|].
  intros l. apply orderly_for_each. intros x. apply orderly_print.
Qed.

(** X9. [query_service] never writes to the output stream; it leaves through
    [sys.exit] only with 1, 3, 4 or 5, after exactly one line on the error
    stream, and leaves that stream alone when it returns or dies of an
    exception. *)
Theorem query_service_streams w url parameters :
  quiet (query_service w url parameters)
  /\ orderly [1; 3; 4; 5] (query_service w url parameters).
Proof.
  split; [|apply query_service_orderly].
  intros s. unfold query_service. unfold bind at 1.
  destruct (key_file w) as [text|e] eqn:Ek.
  - rewrite (load_swc_key_ok w text s Ek).
    unfold bind, try_except, lift.
    destruct (http_get w url (request_headers (strip (readline text)))
                parameters) as [resp|e]; simpl.
    + destruct (negb (status_code resp =? 200)); [reflexivity|].
      destruct (headers_get (headers resp) "Content-Type") as [ct|];
        [|reflexivity].
      destruct (negb (str_in "application/json" ct)); [reflexivity|].
      destruct (rbind _ _); reflexivity.
    + destruct (is_ConnectionError e); reflexivity.
  - unfold load_swc_key, try_except, bind, lift. rewrite Ek. simpl.
    destruct (is_IOError e); reflexivity.
Qed.

(** X10. [main] only adds to the output stream; it leaves through
    [sys.exit] only with a code from 1 to 5, after exactly one line on the
    error stream, and writes nothing to that stream otherwise. *)
Theorem main_orderly w : orderly [1; 2; 3; 4; 5] (main w).
Proof.
  assert (Hq : forall url parameters,
             orderly [1; 2; 3; 4; 5] (query_service w url parameters)).
  { intros. eapply orderly_weaken; [|apply query_service_orderly].
    intros c Hc. simpl in *. intuition. }
  assert (He : orderly [1; 2; 3; 4; 5] (load_event w)).
  { unfold load_event. apply orderly_try_lift. simpl. auto. }
  unfold main.
  repeat (first
    [ exact He
    | apply Hq
    | apply print_sessions_orderly
    | apply print_alerts_orderly
    | apply orderly_print
    | apply orderly_lift
    | apply orderly_bind; [|intros ?] ]).
Qed.

(** ** [query_service]: the answer *)

Lemma prefix_app (a b : string) : String.prefix a (a ++ b) = true.
Proof.
  induction a as [|c a IH]; simpl; [now destruct b|].
  destruct (ascii_dec c c); [assumption|contradiction].
Qed.

Lemma str_in_prefix needle hay :
  String.prefix needle hay = true -> str_in needle hay = true.
Proof. intros H. destruct hay; cbn [str_in]; now rewrite H. Qed.

Lemma str_in_app needle before after :
  str_in needle (before ++ needle ++ after) = true.
Proof.
  induction before as [|c r IH].
  - cbn [append]. apply str_in_prefix, prefix_app.
  - change (String.prefix needle (String c (r ++ needle ++ after))
            || str_in needle (r ++ needle ++ after) = true).
    rewrite IH. apply orb_true_r.
Qed.

Lemma query_service_returns w url parameters s text resp before after d
  objects :
  key_file w = Ok text ->
  http_get w url (request_headers (strip (readline text))) parameters
  = Ok resp ->
  status_code resp = 200 ->
  headers_get (headers resp) "Content-Type"
  = Some (before ++ "application/json" ++ after)%string ->
  json_loads w (body resp) = Ok (PDict d) ->
  dict_get d "objects" = Some objects ->
  query_service w url parameters s = (s, Return objects).
Proof.
  intros Hk Hr Hs Hh Hj Hd.
  rewrite (query_service_response w url parameters text resp s Hk Hr).
  rewrite Hs, Hh, str_in_app, Hj. simpl. unfold dict_getitem.
  now rewrite Hd.
Qed.

(** X11. With the key read, status 200, a content type that has
    [application/json] anywhere in it and a body that decodes to an object
    with a member [objects], [query_service] returns that member and writes
    nothing. *)
Theorem query_service_success w url parameters s text resp before after d
  objects :
  key_file w = Ok text ->
  http_get w url (request_headers (strip (readline text))) parameters
  = Ok resp ->
  status_code resp = 200 ->
  headers_get (headers resp) "Content-Type"
  = Some (before ++ "application/json" ++ after)%string ->
  json_loads w (body resp) = Ok (PDict d) ->
  dict_get d "objects" = Some objects ->
  query_service w url parameters s = (s, Return objects).
Proof. exact (query_service_returns w url parameters s text resp before after d objects). Qed.

Lemma query_service_success_witness :
  query_service (example_world (Ok "{}") (Ok ok_empty)) SWC_SESSION_URL []
    empty_streams
  = (empty_streams, Return (PList [])).
Proof.
  apply (query_service_success (example_world (Ok "{}") (Ok ok_empty))
           SWC_SESSION_URL [] empty_streams ("s3cr3t" ++ nl)%string ok_empty
           EmptyString "; charset=utf-8" [("objects", PList [])] (PList []));
    reflexivity.
Defined.

(** ** The presenters *)

Lemma with_output_nil s : with_output s [] = s.
Proof. destruct s. unfold with_output. simpl. now rewrite app_nil_r. Qed.

Lemma with_output_app s a b :
  with_output (with_output s a) b = with_output s (a ++ b).
Proof. unfold with_output. simpl. now rewrite app_assoc. Qed.

Lemma for_each_lines {A} (f : A -> result string) good : forall lines s,
  mapM f good = Ok lines ->
  for_each good (fun x => line <~ lift (f x) ;; print line) s
  = (with_output s (map println lines), Return tt).
Proof.
  induction good as [|x good IH]; simpl; intros lines s H.
  - injection H as <-. simpl. now rewrite with_output_nil.
  - destruct (f x) as [t|] eqn:Ex; simpl in H; [|discriminate].
    destruct (mapM f good) as [ts|] eqn:Em; simpl in H; [|discriminate].
    injection H as <-. unfold bind at 1. unfold bind at 1. simpl.
    rewrite (IH ts _ eq_refl).
    unfold with_output, println. simpl. now rewrite <- app_assoc.
Qed.


Lemma print_sessions_run w l lines s :
  mapM (session_text w) l = Ok lines ->
  print_sessions w (PList l) s
  = (with_output s (map println lines), Return tt).
Proof.
  intros H. unfold print_sessions. unfold bind at 1. simpl.
  now apply for_each_lines.
Qed.





Lemma print_alerts_run w l s :
  print_alerts w (PList l) s
  = (with_output s (map (fun alert => println (json_dumps w alert)) l),
     Return tt).
Proof.
  unfold print_alerts. unfold bind at 1. simpl. revert s.
  induction l as [|x l IH]; intros s; simpl.
  - now rewrite with_output_nil.
  - unfold bind at 1. simpl. rewrite IH.
    unfold with_output, println. simpl. now rewrite <- app_assoc.
Qed.

(** X14. [print_alerts] writes one dump per alert of a list, in order, and
    returns: no alert makes it fail. *)
Theorem print_alerts_lines w l s :
  print_alerts w (PList l) s
  = (with_output s (map (fun alert => println (json_dumps w alert)) l),
     Return tt).
Proof. exact (print_alerts_run w l s). Qed.


(** The two lines of that example, as they are written. *)
Example print_sessions_example :
  print_sessions (example_world (Ok "{}") (Ok ok_empty))
    (PList [full_session "10.0.0.1" 10 5; full_session "10.0.0.2" 7 0])
    empty_streams
  = (with_output empty_streams
       (map println [full_session_line "10.0.0.1" "10" "5";
                     full_session_line "10.0.0.2" "7" "0"]),
     Return tt).
Proof. apply print_sessions_run. reflexivity. Qed.

(** A record with the ten fields whose start time is a number is not shown:
    the slice raises [TypeError]. *)
Example print_sessions_numeric_start :
  session_text (example_world (Ok "{}") (Ok ok_empty))
    (PDict [("start_timestamp_utc", PInt 5); ("ip", PStr "10.0.0.1");
            ("port", PInt 443); ("connected_ip", PStr "192.0.2.7");
            ("connected_port", PInt 51234); ("protocol", PStr "TCP");
            ("octets_in", PInt 1); ("octets_out", PInt 2);
            ("packets_in", PInt 4); ("packets_out", PInt 6)])
  = Raise TypeError.
Proof. reflexivity. Qed.


(** ** [main] from end to end *)

Lemma load_event_ok w s text v :
  event_file w = Ok text -> json_loads w text = Ok v ->
  load_event w s = (s, Return v).
Proof.
  intros Hf Hj. unfold load_event, try_except, lift. rewrite Hf. simpl.
  now rewrite Hj.
Qed.

Lemma print_run text s : print text s = (with_output s [println text], Return tt).
Proof. reflexivity. Qed.

Lemma lift_ok_run {A} (a : A) s : lift (Ok a) s = (s, Return a).
Proof. reflexivity. Qed.

Lemma timestamp_ok_parsed tz n ev :
  sane_zone tz -> parseable_or_absent ev = true ->
  - 1000000 <= n <= 1000000 ->
  timestamp_ok tz n ev = true.
Proof.
  unfold parseable_or_absent, timestamp_ok. intros Hz Hp Hn.
  destruct (dict_get ev "timestamp") as [[| | |ts| |]|]; try discriminate;
    [|reflexivity].
  destruct (strptime ts) as [tm|] eqn:E.
  - rewrite (timestamp_range_returns tz ts tm n E);
      [reflexivity| |]; eapply parsed_window_representable; eauto; lia.
  - unfold timestamp_range in *. rewrite E in *. discriminate.
Qed.

Lemma create_params_returns tz ev translation n :
  (uses_timestamp translation = true -> timestamp_ok tz n ev = true) ->
  exists params, create_params tz (PDict ev) translation n = Ok params.
Proof.
  intros H. unfold create_params. apply loop_returns.
  intros k _ e. now apply param_entry_safe.
Qed.

(** X15. When the event is a mapping whose timestamp is absent or parseable
    and the service answers every request with an empty list of objects,
    [main] writes its four headers, in order, and nothing else, and
    returns. *)
Theorem main_empty_answers w s etext ev ktext resp before after d :
  sane_zone (zone w) ->
  event_file w = Ok etext ->
  json_loads w etext = Ok (PDict ev) ->
  parseable_or_absent ev = true ->
  key_file w = Ok ktext ->
  (forall url request parameters,
     http_get w url request parameters = Ok resp) ->
  status_code resp = 200 ->
  headers_get (headers resp) "Content-Type"
  = Some (before ++ "application/json" ++ after)%string ->
  json_loads w (body resp) = Ok (PDict d) ->
  dict_get d "objects" = Some (PList []) ->
  main w s
  = (with_output s [header_matching; header_nearby; header_talkers;
                    header_alerts],
     Return tt).
Proof.
  intros Hz Hf Hj Hp Hk Hsvc Hs Hh Hb Hd.
  assert (Hq : forall url parameters s',
             query_service w url parameters s' = (s', Return (PList []))).
  { intros. eapply query_service_returns; eauto. }
  assert (Hok : forall n, - 1000000 <= n <= 1000000 ->
                          timestamp_ok (zone w) n ev = true).
  { intros. now apply timestamp_ok_parsed. }
  destruct (create_params_returns (zone w) ev matching_translation 5)
    as [p1 H1]; [intros; apply Hok; lia|].
  destruct (create_params_returns (zone w) ev nearby_translation 30)
    as [p2 H2]; [intros; apply Hok; lia|].
  destruct (create_params_returns (zone w) ev talkers_translation 30)
    as [p3 H3]; [intros; apply Hok; lia|].
  destruct (create_params_returns (zone w) ev alert_translation (3600 * 24 * 7))
    as [p4 H4]; [intros; apply Hok; lia|].
  assert (Hps : forall s', print_sessions w (PList []) s' = (s', Return tt)).
  { intros. rewrite (print_sessions_run w [] [] s' eq_refl).
    simpl. now rewrite with_output_nil. }
  assert (Hpa : forall s', print_alerts w (PList []) s' = (s', Return tt)).
  { intros. rewrite print_alerts_run. simpl. now rewrite with_output_nil. }
  unfold main, alert_params.
  unfold bind at 1. rewrite (load_event_ok w s etext _ Hf Hj).
  unfold bind at 1. rewrite print_run.
  unfold bind at 1. rewrite H1, lift_ok_run.
  unfold bind at 1. rewrite Hq.
  unfold bind at 1. rewrite Hps.
  unfold bind at 1. rewrite print_run.
  unfold bind at 1. rewrite H2, lift_ok_run.
  unfold bind at 1. rewrite Hq.
  unfold bind at 1. change (sort_sessions (PList [])) with (Ok (PList [])).
  rewrite lift_ok_run.
  unfold bind at 1. rewrite Hps.
  unfold bind at 1. rewrite print_run.
  unfold bind at 1. rewrite H3, lift_ok_run.
  unfold bind at 1. rewrite Hq.
  unfold bind at 1. change (top_talkers (PList [])) with (Ok (PList [])).
  rewrite lift_ok_run.
  unfold bind at 1. rewrite Hps.
  unfold bind at 1. rewrite print_run.
  unfold bind at 1. rewrite H4. cbv beta iota delta [rbind].
  rewrite lift_ok_run.
  unfold bind at 1. rewrite Hq.
  rewrite Hpa. now rewrite !with_output_app.
Qed.

Lemma main_empty_answers_witness :
  main (example_world (Ok event_text) (Ok ok_empty)) empty_streams
  = (with_output empty_streams
       [header_matching; header_nearby; header_talkers; header_alerts],
     Return tt).
Proof.
  apply (main_empty_answers (example_world (Ok event_text) (Ok ok_empty))
           empty_streams event_text
           [("src_ip", PStr "10.0.0.1");
            ("timestamp", PStr "2021-01-01 00:00:00")]
           ("s3cr3t" ++ nl)%string ok_empty EmptyString "; charset=utf-8"
           [("objects", PList [])]); try reflexivity.
  split; [intros x; simpl; lia|]. constructor; [lia|constructor].
Defined.

(** X16. When the event file decodes to a value that is not a mapping,
    [main] writes its first header and dies of [TypeError] before any
    request is made. *)
Theorem main_event_not_mapping w s etext v :
  event_file w = Ok etext ->
  json_loads w etext = Ok v ->
  is_mapping v = false ->
  main w s = (with_output s [header_matching], Uncaught TypeError).
Proof.
  intros Hf Hj Hm. unfold main.
  unfold bind at 1. rewrite (load_event_ok w s etext _ Hf Hj).
  unfold bind at 1. rewrite print_run.
  unfold bind at 1.
  rewrite (create_params_type_error (zone w) v matching_translation 5 Hm)
    by discriminate.
  reflexivity.
Qed.

Lemma main_event_not_mapping_witness :
  main (example_world (Ok "[ {} ]") (Ok ok_empty)) empty_streams
  = (with_output empty_streams [header_matching], Uncaught TypeError).
Proof.
  apply (main_event_not_mapping (example_world (Ok "[ {} ]") (Ok ok_empty))
           empty_streams "[ {} ]" (PList [PDict []])); reflexivity.
Defined.

(** ** More on the sort of the driver *)

Lemma mapM_stops {A B} (f : A -> result B) good bad rest e : forall keys,
  mapM f good = Ok keys -> f bad = Raise e ->
  mapM f (good ++ bad :: rest) = Raise e.
Proof.
  induction good as [|x good IH]; simpl; intros keys H Hb.
  - now rewrite Hb.
  - destruct (f x) as [y|]; simpl in *; [|discriminate].
    destruct (mapM f good) as [ys|]; simpl in *; [|discriminate].
    now rewrite (IH ys eq_refl Hb).
Qed.

(** X17. If a record of the answer has no integer total, the sort raises the
    exception of the first such record and nothing is sorted, so the
    scenario shows no session at all. *)
Theorem sort_sessions_first_failure good bad rest keys e :
  mapM session_total good = Ok keys ->
  session_total bad = Raise e ->
  sort_sessions (PList (good ++ bad :: rest)) = Raise e
  /\ top_talkers (PList (good ++ bad :: rest)) = Raise e.
Proof.
  intros H Hb. unfold top_talkers, sort_sessions.
  rewrite (mapM_stops session_total good bad rest e keys H Hb).
  split; reflexivity.
Qed.

Lemma sort_sessions_first_failure_witness :
  sort_sessions (PList ([session "a" 10 5; session "b" 100 0]
                        ++ half_session "c" 7 :: [PInt 3]))
  = Raise KeyError
  /\ top_talkers (PList ([session "a" 10 5; session "b" 100 0]
                         ++ half_session "c" 7 :: [PInt 3]))
     = Raise KeyError.
Proof.
  apply (sort_sessions_first_failure
           [session "a" 10 5; session "b" 100 0] (half_session "c" 7)
           [PInt 3] [15; 100] KeyError); reflexivity.
Defined.

Lemma sorted_fixed l : StronglySorted total_ge l -> sort_desc l = l.
Proof.
  induction 1 as [|[k x] l Hs IH Hall]; simpl; [reflexivity|].
  rewrite IH. destruct l as [|[k' x'] l']; [reflexivity|]. simpl.
  inversion Hall as [|? ? Hk _]; subst. unfold total_ge in Hk. simpl in Hk.
  assert ((k <? k') = false) as -> by lia. reflexivity.
Qed.

Lemma mapM_keyed {A B} (f : A -> result B) (l : list (B * A)) :
  Forall (fun p => f (snd p) = Ok (fst p)) l ->
  mapM f (map snd l) = Ok (map fst l).
Proof.
  induction 1 as [|[k x] l Hx _ IH]; simpl; [reflexivity|].
  simpl in Hx. now rewrite Hx, IH.
Qed.

Lemma combine_fst_snd {A B} (l : list (A * B)) :
  combine (map fst l) (map snd l) = l.
Proof. induction l as [|[a b] l IH]; simpl; congruence. Qed.

(** X18. Sorting is idempotent: what the sort returns, sorted again, comes
    back as it is. *)
Theorem sort_sessions_idempotent v v' :
  sort_sessions v = Ok v' -> sort_sessions v' = Ok v'.
Proof.
  unfold sort_sessions. destruct v as [| | | |l|]; try discriminate.
  destruct (mapM session_total l) as [keys|] eqn:E; [|discriminate].
  cbv beta iota delta [rbind]. intros H. injection H as <-.
  destruct (mapM_combine session_total l keys E) as (_ & _ & Hall).
  set (sorted := sort_desc (combine keys l)).
  assert (Hs : Forall (fun p => session_total (snd p) = Ok (fst p)) sorted).
  { eapply Permutation_Forall; [|exact Hall].
    symmetry. apply sort_desc_perm. }
  rewrite (mapM_keyed session_total sorted Hs).
  cbv beta iota delta [rbind].
  rewrite combine_fst_snd. unfold sorted at 1.
  rewrite sorted_fixed by apply sort_desc_sorted. reflexivity.
Qed.

Lemma sort_sessions_idempotent_witness :
  sort_sessions
    (PList [session "b" 100 0; session "e" 50 50; session "a" 10 5;
            session "c" 7 8; session "g" 15 0; session "f" 1 2;
            session "d" 0 0])
  = Ok (PList [session "b" 100 0; session "e" 50 50; session "a" 10 5;
               session "c" 7 8; session "g" 15 0; session "f" 1 2;
               session "d" 0 0]).
Proof.
  apply (sort_sessions_idempotent (PList example_sessions)). reflexivity.
Defined.

(** X19. With five records or fewer the slice drops nothing: the third
    scenario shows what the sort returns. *)
Theorem top_talkers_short l keys :
  mapM session_total l = Ok keys ->
  (length l <= 5)%nat ->
  top_talkers (PList l) = sort_sessions (PList l).
Proof.
  intros H Hlen. unfold top_talkers, sort_sessions. rewrite H.
  cbv beta iota delta [rbind top5].
  rewrite firstn_all2; [reflexivity|].
  rewrite length_map, (Permutation_length (sort_desc_perm _)), length_combine.
  lia.
Qed.

Lemma top_talkers_short_witness :
  top_talkers (PList [session "a" 10 5; session "b" 100 0])
  = sort_sessions (PList [session "a" 10 5; session "b" 100 0]).
Proof.
  apply (top_talkers_short [session "a" 10 5; session "b" 100 0] [15; 100]);
    [reflexivity|simpl; lia].
Defined.

(** ** The alert query without a timestamp *)

(** X20. For an event without a timestamp the alert query has no time
    bounds: its only parameter is [status], set to [all]. *)
Theorem alert_params_no_timestamp tz ev :
  dict_get ev "timestamp" = None ->
  alert_params tz (PDict ev) = Ok [("status", PStr "all")].
Proof.
  intros H. unfold alert_params.
  rewrite create_params_no_fields; [reflexivity|].
  intros source Hs. simpl in Hs.
  destruct Hs as [<-|[<-|[]]]; exact H.
Qed.

Lemma alert_params_no_timestamp_witness :
  alert_params us_eastern (PDict [("src_ip", PStr "10.0.0.1")])
  = Ok [("status", PStr "all")].
Proof.
  apply (alert_params_no_timestamp us_eastern [("src_ip", PStr "10.0.0.1")]).
  reflexivity.
Defined.

(** ** Counters spelled as strings *)

Lemma rd_digits_acc l : forall acc,
  rd_digits (NilEmpty.string_of_uint l) (Z.pos acc) true
  = Some (Z.pos (Pos.of_uint_acc l acc)).
Proof.
  induction l; intros acc; cbn [NilEmpty.string_of_uint rd_digits Pos.of_uint_acc];
    [reflexivity|..];
    match goal with
    | |- context [digit ?c] =>
        let v := eval vm_compute in (digit c) in change (digit c) with v
    end; cbv iota;
    match goal with
    | |- rd_digits _ ?z true = Some (Z.pos (Pos.of_uint_acc _ ?q)) =>
        replace z with (Z.pos q) by lia
    end; apply IHl.
Qed.

Lemma rd_digits_uint l : forall b,
  l <> Decimal.Nil ->
  rd_digits (NilEmpty.string_of_uint l) 0 b = Some (Z.of_N (Pos.of_uint l)).
Proof.
  induction l; intros b Hl; [contradiction|..];
    cbn [NilEmpty.string_of_uint rd_digits Pos.of_uint];
    match goal with
    | |- context [digit ?c] =>
        let v := eval vm_compute in (digit c) in change (digit c) with v
    end; cbv iota.
  1: { change (10 * 0 + 0) with 0. destruct l; [reflexivity|..];
       apply IHl; discriminate. }
  all: match goal with
       | |- rd_digits _ ?z true = Some (Z.of_N (N.pos (Pos.of_uint_acc _ ?q))) =>
           change z with (Z.pos q)
       end; apply rd_digits_acc.
Qed.

Lemma string_of_uint_nonspace l :
  all_nonspace (NilEmpty.string_of_uint l) = true.
Proof. induction l; simpl; auto. Qed.

Lemma is_c_space_is_space c : is_space c = false -> is_c_space c = false.
Proof.
  unfold is_space, is_c_space. cbv zeta.
  set (n := Z.of_N (N_of_ascii c)). lia.
Qed.

Lemma rstrip_c_nonspace s : all_nonspace s = true -> rstrip_c s = s.
Proof.
  induction s as [|c r IH]; [reflexivity|]. simpl. intros H.
  apply andb_true_iff in H. destruct H as [Hc Hr]. rewrite (IH Hr).
  destruct r; [|reflexivity].
  apply negb_true_iff in Hc. now rewrite (is_c_space_is_space c Hc).
Qed.

Lemma strip_c_nonspace s :
  all_nonspace s = true -> rstrip_c (skip_c_spaces s) = s.
Proof.
  intros H.
  assert (Hs : skip_c_spaces s = s).
  { destruct s as [|c r]; [reflexivity|]. simpl in *.
    apply andb_true_iff in H. destruct H as [Hc _].
    apply negb_true_iff in Hc. now rewrite (is_c_space_is_space c Hc). }
  rewrite Hs. now apply rstrip_c_nonspace.
Qed.

Lemma nilzero_string_of_uint l :
  l <> Decimal.Nil ->
  NilZero.string_of_uint l = NilEmpty.string_of_uint l.
Proof. destruct l; [contradiction|reflexivity..]. Qed.

(** The digits of a numeral do not start with a sign. *)
Lemma unsigned_digits l :
  l <> Decimal.Nil ->
  (count_digits (NilEmpty.string_of_uint l) <=? int_max_str_digits) = true ->
  match NilEmpty.string_of_uint l with
  | String "-" t => option_map Z.opp (int_digits t)
  | String "+" t => int_digits t
  | t => int_digits t
  end = Some (Z.of_N (Pos.of_uint l)).
Proof.
  intros Hl Hc.
  assert (H : int_digits (NilEmpty.string_of_uint l)
              = Some (Z.of_N (Pos.of_uint l))).
  { unfold int_digits. rewrite Hc. exact (rd_digits_uint _ false Hl). }
  destruct l; [contradiction|..]; exact H.
Qed.

(** [int] reads back what [str] prints of an integer, as long as the digits
    are no more than the limit. *)
Lemma py_int_str_of_Z z :
  (count_digits (str_of_Z z) <=? int_max_str_digits) = true ->
  py_int (PStr (str_of_Z z)) = Ok z.
Proof.
  unfold py_int, str_of_Z. destruct z as [|p|p]; [reflexivity| |];
    pose proof (Unsigned.to_uint_nonnil p) as Hn;
    cbn [Z.to_int NilZero.string_of_int];
    rewrite (nilzero_string_of_uint _ Hn); intros Hc.
  - rewrite strip_c_nonspace by apply string_of_uint_nonspace.
    rewrite (unsigned_digits _ Hn Hc), Unsigned.of_to. reflexivity.
  - rewrite strip_c_nonspace
      by (cbn [all_nonspace]; now rewrite string_of_uint_nonspace).
    cbv beta iota. unfold int_digits.
    change (count_digits (String "-" (NilEmpty.string_of_uint (Pos.to_uint p))))
      with (count_digits (NilEmpty.string_of_uint (Pos.to_uint p))) in Hc.
    rewrite Hc.
    rewrite (rd_digits_uint _ false Hn), Unsigned.of_to. reflexivity.
Qed.

(** [int] skips blanks at both ends, not the separators [str.strip] also
    removes, and refuses a numeral of more digits than the limit. *)
Example py_int_blanks : py_int (PStr " 42 ") = Ok 42.
Proof. reflexivity. Qed.

Example py_int_separator :
  strip (String (ascii_of_nat 28) "42") = "42"
  /\ py_int (PStr (String (ascii_of_nat 28) "42")) = Raise ValueError.
Proof. split; reflexivity. Qed.

Lemma int_digits_limit t :
  int_max_str_digits < count_digits t -> int_digits t = None.
Proof.
  intros H. unfold int_digits.
  destruct (count_digits t <=? int_max_str_digits) eqn:E; [lia|reflexivity].
Qed.

(** X21. Byte counters that arrive as the decimal strings of integers, of no
    more digits than [int] converts, are totalled as the numbers they
    spell. *)
Theorem session_total_of_strings x a b :
  py_getitem x "octets_in" = Ok (PStr (str_of_Z a)) ->
  py_getitem x "octets_out" = Ok (PStr (str_of_Z b)) ->
  (count_digits (str_of_Z a) <=? int_max_str_digits) = true ->
  (count_digits (str_of_Z b) <=? int_max_str_digits) = true ->
  session_total x = Ok (a + b).
Proof.
  intros Ha Hb Ca Cb. unfold session_total.
  rewrite Ha. cbv beta iota delta [rbind]. rewrite (py_int_str_of_Z a Ca).
  cbv beta iota. rewrite Hb. cbv beta iota. rewrite (py_int_str_of_Z b Cb).
  reflexivity.
Qed.

Lemma session_total_of_strings_witness :
  session_total (text_session "10.0.0.1" 1200 (- 7)) = Ok (1200 + - 7).
Proof.
  apply (session_total_of_strings (text_session "10.0.0.1" 1200 (- 7)));
    reflexivity.
Defined.

(** ** From a printed bound back to a timestamp *)

Lemma all_from_spec check fuel : forall i j,
  all_from check fuel i = true -> i <= j < i + Z.of_nat fuel ->
  check j = true.
Proof.
  induction fuel as [|fuel IH]; intros i j H Hj; [lia|].
  cbn [all_from] in H. apply andb_true_iff in H. destruct H as [Hi Hr].
  destruct (Z.eq_dec i j) as [<-|Hne]; [assumption|].
  apply (IH (i + 1)); [assumption|lia].
Qed.

Lemma year4_check :
  all_from (fun y => String.eqb (str_of_Z y) (year4 y)) (Z.to_nat 9000) 1000
  = true.
Proof. vm_compute. reflexivity. Qed.

Lemma str_of_Z_year4 y : 1000 <= y <= 9999 -> str_of_Z y = year4 y.
Proof.
  intros H. apply String.eqb_eq.
  apply (all_from_spec _ _ 1000 y year4_check). lia.
Qed.

Lemma digit_char_not_T d : 0 <= d <= 9 -> Ascii.eqb (digit_char d) "T" = false.
Proof.
  intros H.
  assert (E : d = 0 \/ d = 1 \/ d = 2 \/ d = 3 \/ d = 4 \/ d = 5 \/ d = 6
              \/ d = 7 \/ d = 8 \/ d = 9) by lia.
  repeat (destruct E as [->|E]; [reflexivity|]). now subst.
Qed.

Lemma digit_char_not_space d : 0 <= d <= 9 -> is_space (digit_char d) = false.
Proof.
  intros H.
  assert (E : d = 0 \/ d = 1 \/ d = 2 \/ d = 3 \/ d = 4 \/ d = 5 \/ d = 6
              \/ d = 7 \/ d = 8 \/ d = 9) by lia.
  repeat (destruct E as [->|E]; [reflexivity|]). now subst.
Qed.

Lemma rd_field_pad2 two one v rest :
  0 <= v < 100 -> two (v / 10) (v mod 10) = true ->
  rd_field two one
    (String (digit_char (v / 10)) (String (digit_char (v mod 10)) rest))
  = Some (v, rest).
Proof.
  intros Hv Ht. unfold rd_field.
  rewrite !digit_digit_char by (Z.to_euclidean_division_equations; lia).
  rewrite Ht. repeat f_equal. Z.to_euclidean_division_equations. lia.
Qed.

(** X22. What [strftime] prints of a valid time of a four-digit year, shown
    the way the session presenter shows a time (last character dropped, T
    turned into a blank), is a timestamp in the format of the event file,
    and [strptime] reads it back to the same broken-down time. *)
Theorem presenter_time_round_trip tm :
  valid_tm tm = true ->
  exists printed,
    strftime tm = Ok printed
    /\ start_time (PStr printed) = Ok (shown_time tm)
    /\ strptime (shown_time tm) = Ok tm.
Proof.
  unfold valid_tm. intros H. exists (strftime_text tm).
  repeat (apply andb_true_iff in H; destruct H as [H ?]).
  destruct tm as [y mo d hh mi ss]. cbn [tm_year tm_mon tm_mday tm_hour tm_min
    tm_sec] in *.
  assert (Hy : 1000 <= y <= 9999) by lia.
  assert (Hmo : 1 <= mo <= 12) by lia.
  assert (Hd : 1 <= d <= 31).
  { unfold days_in_month in *.
    destruct (mo =? 2); [destruct (is_leap y)|destruct (_ || _)]; lia. }
  assert (Hhh : 0 <= hh <= 23) by lia.
  assert (Hmi : 0 <= mi <= 59) by lia.
  assert (Hss : 0 <= ss <= 59) by lia.
  split.
  { unfold strftime, fits_c_int. cbn [tm_year].
    assert ((- 2 ^ 31 <=? y) && (y <? 2 ^ 31) = true) as -> by lia.
    reflexivity. }
  unfold strftime_text, shown_time.
  cbn [tm_year tm_mon tm_mday tm_hour tm_min tm_sec].
  rewrite (str_of_Z_year4 y Hy). unfold year4, pad2. cbn [append].
  split.
  - unfold start_time. cbn [drop_last replace_T].
    rewrite !digit_char_not_T by (Z.to_euclidean_division_equations; lia).
    reflexivity.
  - unfold strptime, match_timestamp. cbn [rd_year].
    rewrite !digit_digit_char by (Z.to_euclidean_division_equations; lia).
    cbn [obind rd_char]. rewrite Ascii.eqb_refl. cbn [obind].
    unfold rd_month. rewrite rd_field_pad2
      by (cbv beta; Z.to_euclidean_division_equations; lia).
    cbn [obind rd_char]. rewrite Ascii.eqb_refl. cbn [obind].
    unfold rd_day. rewrite rd_field_pad2
      by (cbv beta; Z.to_euclidean_division_equations; lia).
    cbn [obind rd_spaces skip_spaces].
    change (is_space " ") with true. cbv iota.
    rewrite digit_char_not_space by (Z.to_euclidean_division_equations; lia).
    cbn [obind].
    unfold rd_hour. rewrite rd_field_pad2
      by (cbv beta; Z.to_euclidean_division_equations; lia).
    cbn [obind rd_char]. rewrite Ascii.eqb_refl. cbn [obind].
    unfold rd_minute. rewrite rd_field_pad2
      by (cbv beta; Z.to_euclidean_division_equations; lia).
    cbn [obind rd_char]. rewrite Ascii.eqb_refl. cbn [obind].
    unfold rd_second. rewrite rd_field_pad2
      by (cbv beta; Z.to_euclidean_division_equations; lia).
    cbn [obind tm_year tm_mon tm_mday].
    replace (1000 * (y / 1000) + 100 * (y / 100 mod 10)
             + 10 * (y / 10 mod 10) + y mod 10) with y
      by (Z.to_euclidean_division_equations; lia).
    assert ((1 <=? y) = true) as -> by lia.
    assert ((d <=? days_in_month y mo) = true) as -> by lia.
    reflexivity.
Qed.

Lemma presenter_time_round_trip_witness :
  exists printed,
    strftime (mk_tm 2021 3 14 3 0 3) = Ok printed
    /\ start_time (PStr printed) = Ok "2021-03-14 03:00:03"
    /\ strptime "2021-03-14 03:00:03" = Ok (mk_tm 2021 3 14 3 0 3).
Proof.
  apply (presenter_time_round_trip (mk_tm 2021 3 14 3 0 3)). reflexivity.
Defined.
